(** * The JNI bridge of fcitx5-android (app/src/main/cpp/native-lib.cpp)

    A shallow embedding of the native library that embeds the fcitx5 input
    method engine into the Android host: the log relay thread, the four
    process-wide globals, [startupFcitx] and the guarded entry points, the
    four notification callbacks, and the character overload of send-key.

    The bridge is C++ running on several threads, with no lock of its
    own.  Each JNI function is written as a program in a small
    state-and-error monad over the shared globals.  The blocking
    [startupFcitx] is then cut at the statements that write a global, and
    the guarded operations at their reads of the globals, so that the
    moves of several threads can be interleaved.  The three pointers own
    what they point at: what each assignment deletes is part of the
    model. *)

From Stdlib Require Import ZArith Ascii String List Lia Bool DecimalString.
From stdpp Require Import base option list strings gmap.
Import ListNotations.

Local Open Scope string_scope.
Local Open Scope list_scope.

(** ** C strings *)

(** The terminator of a C string. *)
Definition NUL : ascii := Ascii.zero.

(** '\n' *)
Definition newline : ascii := "010"%char.

(** What a consumer of a [const char*] reads from memory: the bytes up to,
    and without, the first NUL.  When the memory shown holds no NUL at all
    the consumer runs to its end. *)
Fixpoint read_c_string (mem : list ascii) : string :=
  match mem with
  | [] => EmptyString
  | c :: mem' => if Ascii.eqb c NUL then EmptyString else String c (read_c_string mem')
  end.

(** [s.c_str()] handed to an API that takes a NUL-terminated string: the
    bytes of the [std::string] followed by the terminator it keeps. *)
Definition c_str (s : string) : string :=
  read_c_string (list_ascii_of_string s ++ [NUL]).

(** A string that holds no NUL byte. *)
Fixpoint nul_free (s : string) : bool :=
  match s with
  | EmptyString => true
  | String c s' => negb (Ascii.eqb c NUL) && nul_free s'
  end.

(** ** The log sink *)

Inductive LogPriority := ANDROID_LOG_DEBUG.

Record LogEntry := { prio : LogPriority; tag : string; text : string }.

(** [__android_log_write(prio, tag, text)]: [text] is a C string. *)
Definition android_log_write (p : LogPriority) (t : string) (mem : list ascii)
    (sink : list LogEntry) : list LogEntry :=
  sink ++ [ {| prio := p; tag := t; text := read_c_string mem |} ].

(** ** Log relay: [logger_thread] (lines 17-27) *)

(** One call of [read(pfd[0], buf, sizeof buf - 1)]: what the kernel had to
    deliver.  [Delivered bytes] copies at most [count] of them into the
    front of [buf] and returns how many; no bytes is end of file (0) and
    [ReadFailed] is -1. *)
Inductive Delivery := Delivered (bytes : list ascii) | ReadFailed.

Definition sys_read (d : Delivery) (count : nat) (buf : list ascii) : Z * list ascii :=
  match d with
  | Delivered bytes =>
      let got := take count bytes in
      (Z.of_nat (length got), got ++ drop (length got) buf)
  | ReadFailed => ((-1)%Z, buf)
  end.

(** [char buf[128]] *)
Definition BUF_SIZE : nat := 128.

(** The body of the while loop for one successful read (lines 21-24). *)
Definition relay_one (read_size : Z) (buf : list ascii) (sink : list LogEntry)
    : list ascii * list LogEntry :=
  let read_size :=
    if decide (buf !! Z.to_nat (read_size - 1) = Some newline)
    then (read_size - 1)%Z else read_size in
  let buf := <[Z.to_nat read_size := NUL]> buf in
  (buf, android_log_write ANDROID_LOG_DEBUG "fcitx5" buf sink).

(** The loop over the successive reads; it ends at the first read that
    returns 0 or less.  When the deliveries run out the thread is blocked
    in [read]. *)
Fixpoint logger_thread (reads : list Delivery) (buf : list ascii) (sink : list LogEntry)
    : list LogEntry :=
  match reads with
  | [] => sink
  | d :: reads' =>
      let '(read_size, buf) := sys_read d (BUF_SIZE - 1) buf in
      if (0 <? read_size)%Z then
        let '(buf, sink) := relay_one read_size buf sink in
        logger_thread reads' buf sink
      else sink
  end.

(** The bytes of a successful read with one trailing newline removed. *)
Definition strip_newline (bytes : list ascii) : list ascii :=
  match last bytes with
  | Some c => if decide (c = newline) then take (length bytes - 1) bytes else bytes
  | None => bytes
  end.

(** The relay as the specification words it: the stream cut at every
    newline, each line without its newline. *)
Fixpoint spec_lines (cur : list ascii) (stream : list ascii) : list string :=
  match stream with
  | [] => match cur with [] => [] | _ => [string_of_list_ascii cur] end
  | c :: stream' =>
      if decide (c = newline) then string_of_list_ascii cur :: spec_lines [] stream'
      else spec_lines (cur ++ [c]) stream'
  end.

Definition stream_of (reads : list Delivery) : list ascii :=
  concat (map (fun d => match d with Delivered b => b | ReadFailed => [] end) reads).

Definition hello_nl : list ascii := list_ascii_of_string "hello" ++ [newline].

(** ** The engine as the bridge sees it *)

(** [fcitx::ICUUID] is [std::array<uint8_t, 16>]. *)
Definition ICUUID := list Z.

(** A global of static storage starts zero-initialised: the only value of
    [p_uuid] that stands for "no input context yet". *)
Definition ICUUID_zero : ICUUID := replicate 16 0%Z.

(** [fcitx::Key], built from a C string: the key the library parses from a
    descriptor.  The parser is the library's; a key is carried as the
    descriptor it was built from. *)
Inductive Key := Key_parse (descriptor : string).

Record InputMethodGroup := {
  inputMethodList : list string;
  defaultInputMethod : string
}.

(** The calls of [fcitx::IAndroidFrontend] the bridge makes from scheduled
    items, each with its arguments. *)
Module IAndroidFrontend.

Inductive Call :=
  | keyEvent (uuid : ICUUID) (key : Key) (isRelease : bool)
  | selectCandidate (uuid : ICUUID) (idx : Z)
  | resetInputPanel (uuid : ICUUID).

End IAndroidFrontend.

(** Modelled from the spec: the androidfrontend addon, which lives in the
    fcitx5 sources and not in this file.  It keeps which of the four
    callbacks were installed, the input contexts it created, the calls it
    received in order, and what its input-panel query answers.  [deleted]
    is set once the addon has been deleted through an owning pointer that
    is not the engine's, which goes on listing it. *)
Record AndroidFrontend := {
  candidateListCallbackSet : bool;
  commitStringCallbackSet : bool;
  preeditCallbackSet : bool;
  inputPanelAuxCallbackSet : bool;
  inputContexts : list (ICUUID * string);
  received : list IAndroidFrontend.Call;
  inputPanelEmpty : bool;
  deleted : bool
}.

(** Modelled from the spec: [fcitx::Instance], reduced to what the bridge
    touches.  The instance owns its addons, [androidfrontend] among them,
    and deletes them when it is destroyed. *)
Record Instance := {
  argv : list string;
  defaultLoaderRegistered : bool;
  currentGroup : InputMethodGroup;
  exitRequested : bool;
  androidfrontend : AndroidFrontend
}.

(** The closures handed to [EventDispatcher::schedule], one constructor
    per lambda of the source with what it captures by value. *)
Inductive WorkItem :=
  | ItemSetup                  (* line 134 *)
  | ItemExit                   (* line 179 *)
  | ItemKey (parsedKey : Key)  (* lines 192 and 202 *)
  | ItemSelect (idx : Z)       (* line 212 *)
  | ItemResetPanel.            (* line 228 *)

(** Modelled from the spec: [fcitx::EventDispatcher], a queue of work
    items served in submission order by the event loop it is attached to. *)
Record EventDispatcher := {
  attached : bool;
  queue : list WorkItem
}.

(** [handleFcitxEvent(int, Object[])] as the host receives it; an array
    element is [None] while it is still null. *)
Definition jstring := string.
Definition jobjectArray := list (option jstring).

Record HostEvent := { kind : Z; vararg : jobjectArray }.

(** ** The process-wide state *)

(** What [p_frontend] holds when it is not null: the address of an addon
    that an instance owns.  [dangling] is no part of the pointer's value:
    it records that the instance owning the addon has been destroyed
    since, and the addon with it. *)
Record AddonPtr := { target : string; dangling : bool }.

(** Lines 46-49.  The three pointers are [std::unique_ptr]s: each owns
    what it points at and deletes it when it is assigned another value. *)
Record World := {
  p_instance : option Instance;
  p_dispatcher : option EventDispatcher;
  p_frontend : option AddonPtr;
  p_uuid : ICUUID;
  environ : gmap string string;
  logcat : list LogEntry;
  hostEvents : list HostEvent
}.

Definition set_instance (i : option Instance) (w : World) : World :=
  {| p_instance := i; p_dispatcher := p_dispatcher w; p_frontend := p_frontend w;
     p_uuid := p_uuid w; environ := environ w; logcat := logcat w;
     hostEvents := hostEvents w |}.

Definition set_dispatcher (d : option EventDispatcher) (w : World) : World :=
  {| p_instance := p_instance w; p_dispatcher := d; p_frontend := p_frontend w;
     p_uuid := p_uuid w; environ := environ w; logcat := logcat w;
     hostEvents := hostEvents w |}.

Definition set_frontend (f : option AddonPtr) (w : World) : World :=
  {| p_instance := p_instance w; p_dispatcher := p_dispatcher w; p_frontend := f;
     p_uuid := p_uuid w; environ := environ w; logcat := logcat w;
     hostEvents := hostEvents w |}.

Definition set_uuid (u : ICUUID) (w : World) : World :=
  {| p_instance := p_instance w; p_dispatcher := p_dispatcher w;
     p_frontend := p_frontend w; p_uuid := u; environ := environ w;
     logcat := logcat w; hostEvents := hostEvents w |}.

Definition set_environ (e : gmap string string) (w : World) : World :=
  {| p_instance := p_instance w; p_dispatcher := p_dispatcher w;
     p_frontend := p_frontend w; p_uuid := p_uuid w; environ := e;
     logcat := logcat w; hostEvents := hostEvents w |}.

Definition set_logcat (l : list LogEntry) (w : World) : World :=
  {| p_instance := p_instance w; p_dispatcher := p_dispatcher w;
     p_frontend := p_frontend w; p_uuid := p_uuid w; environ := environ w;
     logcat := l; hostEvents := hostEvents w |}.

Definition set_hostEvents (h : list HostEvent) (w : World) : World :=
  {| p_instance := p_instance w; p_dispatcher := p_dispatcher w;
     p_frontend := p_frontend w; p_uuid := p_uuid w; environ := environ w;
     logcat := logcat w; hostEvents := h |}.

(** The process before [JNI_OnLoad] returns: null pointers, a zero uuid. *)
Definition process_start (env0 : gmap string string) : World :=
  {| p_instance := None; p_dispatcher := None; p_frontend := None;
     p_uuid := ICUUID_zero; environ := env0; logcat := []; hostEvents := [] |}.

(** ** The monad of the JNI functions

    A computation reads and writes the globals; [None] is a computation
    that does not come back with a value: undefined behaviour of the C++
    program (a null [unique_ptr] dereferenced, an object used after it was
    deleted or deleted twice, a JNI call on a failed array), or an
    exception that leaves the JNI function. *)
Definition M (A : Type) : Type := World -> option (A * World).

Definition ret {A} (a : A) : M A := fun w => Some (a, w).

Definition bind {A B} (m : M A) (k : A -> M B) : M B :=
  fun w => match m w with
           | Some (a, w') => k a w'
           | None => None
           end.

Definition undefined {A} : M A := fun _ => None.

Definition get {A} (f : World -> A) : M A := fun w => Some (f w, w).

Definition modify (f : World -> World) : M unit := fun w => Some (tt, f w).

Declare Scope jni_scope.
Delimit Scope jni_scope with jni.
Notation "x <- m ;; k" := (bind m (fun x => k))
  (at level 100, m at next level, right associativity) : jni_scope.
Notation "m ;;; k" := (bind m (fun _ => k))
  (at level 100, right associativity) : jni_scope.
Local Open Scope jni_scope.

(** [jniLog] (lines 42-44). *)
Definition jniLog (s : string) : M unit :=
  modify (fun w =>
    set_logcat (android_log_write ANDROID_LOG_DEBUG "JNI"
                  (list_ascii_of_string s ++ [NUL]) (logcat w)) w).

(** [setenv(name, value, overwrite)]; both arguments are C strings. *)
Definition setenv (name value : string) (overwrite : Z) : M unit :=
  modify (fun w =>
    match environ w !! c_str name with
    | Some _ =>
        if (overwrite =? 0)%Z then w
        else set_environ (<[c_str name := c_str value]> (environ w)) w
    | None => set_environ (<[c_str name := c_str value]> (environ w)) w
    end).

(** Dereferencing the owning pointers. *)
Definition the_instance : M Instance :=
  fun w => match p_instance w with Some i => Some (i, w) | None => None end.

Definition the_dispatcher : M EventDispatcher :=
  fun w => match p_dispatcher w with Some d => Some (d, w) | None => None end.

(** [p_frontend->...]: the addon pointed at must still exist. *)
Definition the_frontend : M AndroidFrontend :=
  fun w => match p_frontend w, p_instance w with
           | Some ptr, Some i =>
               if dangling ptr || deleted (androidfrontend i) then None
               else Some (androidfrontend i, w)
           | _, _ => None
           end.

Definition update_instance (f : Instance -> Instance) : M unit :=
  i <- the_instance ;; modify (set_instance (Some (f i))).

Definition with_frontend (f : AndroidFrontend -> AndroidFrontend) (i : Instance) : Instance :=
  {| argv := argv i; defaultLoaderRegistered := defaultLoaderRegistered i;
     currentGroup := currentGroup i; exitRequested := exitRequested i;
     androidfrontend := f (androidfrontend i) |}.

(** The engine reaching its own addon: the result of
    [addonManager().addon("androidfrontend")] used, or the addon at work. *)
Definition engine_frontend : M AndroidFrontend :=
  i <- the_instance ;;
  if deleted (androidfrontend i) then undefined else ret (androidfrontend i).

(** [p_dispatcher->schedule(item)]: enqueue and return.  The spec leaves
    scheduling on a detached dispatcher open; the queue takes the item
    there as well and no loop serves it. *)
Definition schedule (item : WorkItem) : M unit :=
  d <- the_dispatcher ;;
  modify (set_dispatcher (Some {| attached := attached d; queue := queue d ++ [item] |})).

(** [p_frontend->call<...>(...)] for the calls that return nothing. *)
Definition frontend_call (c : IAndroidFrontend.Call) : M unit :=
  _ <- the_frontend ;;
  update_instance (with_frontend (fun f =>
    {| candidateListCallbackSet := candidateListCallbackSet f;
       commitStringCallbackSet := commitStringCallbackSet f;
       preeditCallbackSet := preeditCallbackSet f;
       inputPanelAuxCallbackSet := inputPanelAuxCallbackSet f;
       inputContexts := inputContexts f;
       received := received f ++ [c];
       inputPanelEmpty := inputPanelEmpty f;
       deleted := deleted f |})).

(** ** Callback marshaling (lines 97-125) *)

(** A C++ [int] or JNI [jint]/[jsize]: 32 bits, two's complement. *)
Definition to_int32 (z : Z) : Z := ((z + 2 ^ 31) mod 2 ^ 32 - 2 ^ 31)%Z.

(** [env->NewObjectArray(size, stringClass, nullptr)]: a negative size
    leaves no array to work on. *)
Definition NewObjectArray (size : Z) : M jobjectArray :=
  if (size <? 0)%Z then undefined else ret (replicate (Z.to_nat size) None).

(** [env->SetObjectArrayElement(array, index, value)]. *)
Definition SetObjectArrayElement (array : jobjectArray) (index : Z) (value : jstring)
    : M jobjectArray :=
  if ((0 <=? index) && (index <? Z.of_nat (length array)))%Z
  then ret (<[Z.to_nat index := Some value]> array)
  else undefined.

(** [env->NewStringUTF(bytes)]: a Java string from a C string. *)
Definition NewStringUTF (bytes : string) : jstring := bytes.

(** [env->CallStaticVoidMethod(clazz, handleFcitxEvent, kind, vararg)]. *)
Definition CallStaticVoidMethod_handleFcitxEvent (k : Z) (a : jobjectArray) : M unit :=
  modify (fun w => set_hostEvents (hostEvents w ++ [ {| kind := k; vararg := a |} ]) w).

(** The range-for of [candidateListCallback], with its counter [i]. *)
Fixpoint fill_candidates (candidateList : list string) (i : Z) (vararg : jobjectArray)
    : M jobjectArray :=
  match candidateList with
  | [] => ret vararg
  | s :: rest =>
      vararg <- SetObjectArrayElement vararg (to_int32 i) (NewStringUTF (c_str s)) ;;
      fill_candidates rest (i + 1)%Z vararg
  end.

Definition candidateListCallback (candidateList : list string) : M unit :=
  let size := to_int32 (Z.of_nat (length candidateList)) in
  vararg <- NewObjectArray size ;;
  vararg <- fill_candidates candidateList 0%Z vararg ;;
  CallStaticVoidMethod_handleFcitxEvent 0 vararg.

Definition commitStringCallback (str : string) : M unit :=
  vararg <- NewObjectArray 1 ;;
  vararg <- SetObjectArrayElement vararg 0 (NewStringUTF (c_str str)) ;;
  CallStaticVoidMethod_handleFcitxEvent 1 vararg.

Definition preeditCallback (preedit clientPreedit : string) : M unit :=
  vararg <- NewObjectArray 2 ;;
  vararg <- SetObjectArrayElement vararg 0 (NewStringUTF (c_str preedit)) ;;
  vararg <- SetObjectArrayElement vararg 1 (NewStringUTF (c_str clientPreedit)) ;;
  CallStaticVoidMethod_handleFcitxEvent 2 vararg.

Definition inputPanelAuxCallback (auxUp auxDown : string) : M unit :=
  vararg <- NewObjectArray 2 ;;
  vararg <- SetObjectArrayElement vararg 0 (NewStringUTF (c_str auxUp)) ;;
  vararg <- SetObjectArrayElement vararg 1 (NewStringUTF (c_str auxDown)) ;;
  CallStaticVoidMethod_handleFcitxEvent 3 vararg.

(** What the addon hands to the callback it fires. *)
Inductive NotificationEvent :=
  | CandidateList (candidates : list string)
  | CommitString (str : string)
  | Preedit (preedit clientPreedit : string)
  | AuxText (auxUp auxDown : string).

Definition callback_of (ev : NotificationEvent) : M unit :=
  match ev with
  | CandidateList l => candidateListCallback l
  | CommitString s => commitStringCallback s
  | Preedit p c => preeditCallback p c
  | AuxText u d => inputPanelAuxCallback u d
  end.

Definition callback_installed (ev : NotificationEvent) (f : AndroidFrontend) : bool :=
  match ev with
  | CandidateList _ => candidateListCallbackSet f
  | CommitString _ => commitStringCallbackSet f
  | Preedit _ _ => preeditCallbackSet f
  | AuxText _ _ => inputPanelAuxCallbackSet f
  end.

(** ** Guarded operations (lines 166-231) *)

Definition is_null {A} (p : option A) : bool :=
  match p with None => true | Some _ => false end.

(** The condition of [DO_IF_NOT_RUNNING]. *)
Definition not_running (w : World) : bool :=
  is_null (p_instance w) || is_null (p_dispatcher w) || is_null (p_frontend w).

Definition DO_IF_NOT_RUNNING {A} (expr : A) (rest : M A) : M A :=
  fun w =>
    if not_running w then (jniLog "fcitx is not running!" ;;; ret expr) w
    else rest w.

(** [std::to_string(int)] *)
Definition to_string (z : Z) : string := DecimalString.NilZero.string_of_int (Z.to_int z).

(** [env->GetStringUTFChars(s, nullptr)]: the bytes of the Java string as
    a C string. *)
Definition GetStringUTFChars (s : jstring) : string := c_str s.

(** The two bytes a 16-bit [jchar] occupies, low byte first as on every
    Android ABI. *)
Definition jchar_bytes (c : Z) : list ascii :=
  [ ascii_of_N (Z.to_N (Z.land c 255));
    ascii_of_N (Z.to_N (Z.land (Z.shiftr c 8) 255)) ].

(** [(const char* ) &c]: the bytes of [c] and then whatever the stack holds
    behind it. *)
Definition char_as_c_string (c : Z) (behind : list ascii) : string :=
  read_c_string (jchar_bytes c ++ behind).

Definition exitFcitx : M unit :=
  DO_IF_NOT_RUNNING tt (
    jniLog "shutting down fcitx" ;;;
    schedule ItemExit).

Definition sendKeyToFcitxString (key : jstring) : M unit :=
  DO_IF_NOT_RUNNING tt (
    let k := GetStringUTFChars key in
    let parsedKey := Key_parse k in
    schedule (ItemKey parsedKey)).

Definition sendKeyToFcitxChar (c : Z) (behind : list ascii) : M unit :=
  DO_IF_NOT_RUNNING tt (
    let parsedKey := Key_parse (char_as_c_string c behind) in
    schedule (ItemKey parsedKey)).

Definition selectCandidate (idx : Z) : M unit :=
  DO_IF_NOT_RUNNING tt (
    jniLog ("select candidate #" +:+ to_string idx) ;;;
    schedule (ItemSelect idx)).

Definition isInputPanelEmpty : M bool :=
  DO_IF_NOT_RUNNING true (
    f <- the_frontend ;;
    ret (inputPanelEmpty f)).

Definition resetInputPanel : M unit :=
  DO_IF_NOT_RUNNING tt (schedule ItemResetPanel).

(** ** Ownership

    Assigning to a [unique_ptr] stores the new value and deletes what the
    pointer held.  [p_frontend] is given an addon of the instance (line
    147), which the instance goes on owning: that addon has two owners.
    Deleting an object a second time is undefined behaviour. *)

Definition mark_deleted (f : AndroidFrontend) : AndroidFrontend :=
  {| candidateListCallbackSet := candidateListCallbackSet f;
     commitStringCallbackSet := commitStringCallbackSet f;
     preeditCallbackSet := preeditCallbackSet f;
     inputPanelAuxCallbackSet := inputPanelAuxCallbackSet f;
     inputContexts := inputContexts f;
     received := received f;
     inputPanelEmpty := inputPanelEmpty f;
     deleted := true |}.

(** The addon [p_frontend] points at, if any, is no more. *)
Definition frontend_dangles (w : World) : World :=
  match p_frontend w with
  | Some ptr => set_frontend (Some {| target := target ptr; dangling := true |}) w
  | None => w
  end.

(** [~Instance]: the instance deletes its addons.  One that was deleted
    through [p_frontend] before is deleted a second time; otherwise what
    [p_frontend] still holds dangles from now on. *)
Definition destroy_instance (i : Instance) : M unit :=
  if deleted (androidfrontend i) then undefined
  else modify frontend_dangles.

(** [p_instance = v] *)
Definition assign_instance (v : option Instance) : M unit :=
  old <- get p_instance ;;
  modify (set_instance v) ;;;
  match old with
  | Some i => destroy_instance i
  | None => ret tt
  end.

(** [delete] of the addon [p_frontend] held.  When the instance that owns
    it is gone the addon was deleted with it, and this is the second
    delete; when the instance is there the addon is deleted under it. *)
Definition delete_frontend (ptr : AddonPtr) : M unit :=
  if dangling ptr then undefined
  else
    i <- the_instance ;;
    if deleted (androidfrontend i) then undefined
    else update_instance (with_frontend mark_deleted).

(** [p_frontend = v] and [p_frontend.reset(v)] *)
Definition assign_frontend (v : option AddonPtr) : M unit :=
  old <- get p_frontend ;;
  modify (set_frontend v) ;;;
  match old with
  | Some ptr => delete_frontend ptr
  | None => ret tt
  end.

(** ** The scheduled items *)

Definition install_callbacks_and_context (uuid : ICUUID) (f : AndroidFrontend)
    : AndroidFrontend :=
  {| candidateListCallbackSet := true;
     commitStringCallbackSet := true;
     preeditCallbackSet := true;
     inputPanelAuxCallbackSet := true;
     inputContexts := inputContexts f ++ [(uuid, "fcitx5-android")];
     received := received f;
     inputPanelEmpty := inputPanelEmpty f;
     deleted := deleted f |}.

(** The lambda of lines 134-149 down to line 147; [uuid] is what the
    addon's [createInputContext] returns.  Line 147 hands the addon, which
    the instance owns, to the owning pointer [p_frontend]. *)
Definition setup_item_to_line_147 (uuid : ICUUID) : M unit :=
  i <- the_instance ;;
  let defaultGroup := currentGroup i in
  let defaultGroup :=                                   (* inputMethodList().clear() *)
    {| inputMethodList := []; defaultInputMethod := defaultInputMethod defaultGroup |} in
  let defaultGroup :=                                   (* emplace_back *)
    {| inputMethodList := inputMethodList defaultGroup ++ ["pinyin"];
       defaultInputMethod := defaultInputMethod defaultGroup |} in
  let defaultGroup :=                                   (* setDefaultInputMethod *)
    {| inputMethodList := inputMethodList defaultGroup; defaultInputMethod := "" |} in
  update_instance (fun i =>                             (* setGroup(defaultGroup) *)
    {| argv := argv i; defaultLoaderRegistered := defaultLoaderRegistered i;
       currentGroup := defaultGroup; exitRequested := exitRequested i;
       androidfrontend := androidfrontend i |}) ;;;
  _ <- engine_frontend ;;                               (* addon("androidfrontend") *)
  update_instance (with_frontend (install_callbacks_and_context uuid)) ;;;
  assign_frontend (Some {| target := "androidfrontend"; dangling := false |}).

(** The whole lambda: line 148 writes [p_uuid]. *)
Definition setup_item (uuid : ICUUID) : M unit :=
  setup_item_to_line_147 uuid ;;;
  modify (set_uuid uuid).

(** [p_dispatcher->detach()] *)
Definition EventDispatcher_detach (d : EventDispatcher) : EventDispatcher :=
  {| attached := false; queue := queue d |}.

(** [p_instance->exit()] *)
Definition Instance_exit (i : Instance) : Instance :=
  {| argv := argv i; defaultLoaderRegistered := defaultLoaderRegistered i;
     currentGroup := currentGroup i; exitRequested := true;
     androidfrontend := androidfrontend i |}.

(** The lambda of lines 179-182. *)
Definition exit_item : M unit :=
  d <- the_dispatcher ;;
  modify (set_dispatcher (Some (EventDispatcher_detach d))) ;;;
  update_instance Instance_exit.

Definition run_item (item : WorkItem) (fresh : ICUUID) : M unit :=
  match item with
  | ItemSetup => setup_item fresh
  | ItemExit => exit_item
  | ItemKey parsedKey => u <- get p_uuid ;; frontend_call (IAndroidFrontend.keyEvent u parsedKey false)
  | ItemSelect idx => u <- get p_uuid ;; frontend_call (IAndroidFrontend.selectCandidate u idx)
  | ItemResetPanel => u <- get p_uuid ;; frontend_call (IAndroidFrontend.resetInputPanel u)
  end.

(** ** [startupFcitx] (lines 68-164) *)

Record StartupArgs := { appData : jstring; appLib : jstring; extData : jstring }.

(** Lines 77-91: the environment the engine reads when it is built. *)
Definition establish_environment (a : StartupArgs) : M unit :=
  setenv "SKIP_FCITX_PATH" "true" 1 ;;;
  let app_data := GetStringUTFChars (appData a) in
  let app_lib := GetStringUTFChars (appLib a) in
  let ext_data := GetStringUTFChars (extData a) in
  let libime_data := app_data +:+ "/fcitx5/libime" in
  let app_data_libime := c_str libime_data in
  setenv "HOME" ext_data 1 ;;;
  setenv "XDG_DATA_DIRS" app_data 1 ;;;
  setenv "XDG_CONFIG_HOME" ext_data 1 ;;;
  setenv "XDG_DATA_HOME" ext_data 1 ;;;
  setenv "FCITX_ADDON_DIRS" app_lib 1 ;;;
  setenv "LIBIME_MODEL_DIRS" app_data_libime 1 ;;;
  setenv "LIBIME_INSTALL_PKGDATADIR" app_data_libime 1.

(** Modelled from the spec: a freshly constructed engine.  No callback is
    installed, no input context exists and nothing asked it to exit; the
    group it starts with is replaced by the setup item. *)
Definition Instance_new (args : list string) : Instance :=
  {| argv := args;
     defaultLoaderRegistered := false;
     currentGroup := {| inputMethodList := []; defaultInputMethod := "" |};
     exitRequested := false;
     androidfrontend :=
       {| candidateListCallbackSet := false; commitStringCallbackSet := false;
          preeditCallbackSet := false; inputPanelAuxCallbackSet := false;
          inputContexts := []; received := []; inputPanelEmpty := true;
          deleted := false |} |}.

(** Lines 127-130. *)
Definition construct_instance : M unit :=
  assign_instance (Some (Instance_new [""])) ;;;
  update_instance (fun i =>
    {| argv := argv i; defaultLoaderRegistered := true;
       currentGroup := currentGroup i; exitRequested := exitRequested i;
       androidfrontend := androidfrontend i |}).

(** Lines 131-132. *)
Definition construct_dispatcher : M unit :=
  modify (set_dispatcher (Some {| attached := false; queue := [] |})) ;;;
  d <- the_dispatcher ;;
  _ <- the_instance ;;
  modify (set_dispatcher (Some {| attached := true; queue := queue d |})).

(** The statements of [resetGlobalPointers] (lines 51-56) one by one.
    Line 53 destroys the instance and its addons; the dispatcher owns
    nothing the bridge shares; line 55 deletes what [p_frontend] holds. *)
Definition reset_log : M unit := jniLog "resetGlobalPointers".
Definition reset_instance : M unit := assign_instance None.
Definition reset_dispatcher : M unit := modify (set_dispatcher None).
Definition reset_frontend : M unit := assign_frontend None.

Definition resetGlobalPointers : M unit :=
  reset_log ;;; reset_instance ;;; reset_dispatcher ;;; reset_frontend.

(** How [p_instance->exec()] comes back to the try block of lines 151-161:
    with its code, with one of the two exceptions the block catches, or
    with an exception of a type that is neither [InstanceQuietQuit] nor
    derived from [std::exception]; the block has no [catch (...)]. *)
Inductive ExecOutcome :=
  | Returned (code : Z)
  | InstanceQuietQuit
  | StdException (what : string)
  | OtherException.

(** What the engine does on its thread while [exec] runs.  [Dispatch]
    is one turn of the event loop on the dispatcher's queue ([fresh] is
    the id the addon hands out should the item create an input context),
    [Notify] is the addon firing a callback, [PanelUpdate] the addon
    changing what its input-panel query answers. *)
Inductive ExecEvent :=
  | Dispatch (fresh : ICUUID)
  | Notify (ev : NotificationEvent)
  | PanelUpdate (empty : bool).

Definition set_panel (b : bool) (f : AndroidFrontend) : AndroidFrontend :=
  {| candidateListCallbackSet := candidateListCallbackSet f;
     commitStringCallbackSet := commitStringCallbackSet f;
     preeditCallbackSet := preeditCallbackSet f;
     inputPanelAuxCallbackSet := inputPanelAuxCallbackSet f;
     inputContexts := inputContexts f;
     received := received f;
     inputPanelEmpty := b;
     deleted := deleted f |}.

(** Modelled from the spec: the event loop serves the queue of an attached
    dispatcher in submission order, one item per turn, each item run to
    its end. *)
Definition dispatch (fresh : ICUUID) : M unit :=
  fun w =>
    match p_dispatcher w with
    | Some d =>
        if attached d then
          match queue d with
          | item :: rest =>
              (modify (set_dispatcher (Some {| attached := attached d; queue := rest |})) ;;;
               run_item item fresh) w
          | [] => Some (tt, w)
          end
        else Some (tt, w)
    | None => Some (tt, w)
    end.

Definition exec_event (e : ExecEvent) : M unit :=
  match e with
  | Dispatch fresh => dispatch fresh
  | Notify ev =>
      f <- engine_frontend ;;
      if callback_installed ev f then callback_of ev else ret tt
  | PanelUpdate b =>
      _ <- engine_frontend ;;
      update_instance (with_frontend (set_panel b))
  end.

(** The boundary calls other host threads make. *)
Inductive HostOp :=
  | OpExit
  | OpSendKeyString (key : jstring)
  | OpSendKeyChar (c : Z) (behind : list ascii)
  | OpSelectCandidate (idx : Z)
  | OpIsInputPanelEmpty
  | OpResetInputPanel.

Definition host_call (op : HostOp) : M unit :=
  match op with
  | OpExit => exitFcitx
  | OpSendKeyString key => sendKeyToFcitxString key
  | OpSendKeyChar c behind => sendKeyToFcitxChar c behind
  | OpSelectCandidate idx => selectCandidate idx
  | OpIsInputPanelEmpty => _ <- isInputPanelEmpty ;; ret tt
  | OpResetInputPanel => resetInputPanel
  end.

(** Everything that happens between the call of [exec] and its return:
    the engine's own events and the calls of other host threads.  No
    statement of startup runs meanwhile and nothing then clears a
    pointer, so a guarded operation is placed here whole; cut at its
    reads it runs on the machine further down. *)
Inductive Concurrent :=
  | Engine (e : ExecEvent)
  | Host (op : HostOp).

Fixpoint exec_phase (during : list Concurrent) : M unit :=
  match during with
  | [] => ret tt
  | Engine e :: rest => exec_event e ;;; exec_phase rest
  | Host op :: rest => host_call op ;;; exec_phase rest
  end.

(** [p_instance->exec()] *)
Definition exec (during : list Concurrent) (o : ExecOutcome) : M ExecOutcome :=
  _ <- the_instance ;;
  exec_phase during ;;;
  ret o.

(** One call of [startupFcitx], from entry to return. *)
Definition startupFcitx (a : StartupArgs) (during : list Concurrent) (o : ExecOutcome)
    : M Z :=
  i <- get p_instance ;;
  if negb (is_null i) then
    jniLog "fcitx already running" ;;;
    ret 2%Z
  else
    jniLog "startupFcitx" ;;;
    establish_environment a ;;;
    construct_instance ;;;
    construct_dispatcher ;;;
    schedule ItemSetup ;;;
    r <- exec during o ;;
    match r with
    | Returned code =>
        resetGlobalPointers ;;;
        ret code
    | InstanceQuietQuit =>
        resetGlobalPointers ;;;
        ret 0%Z
    | StdException what =>
        jniLog "fcitx exited with exception:" ;;;
        jniLog what ;;;
        resetGlobalPointers ;;;
        ret 1%Z
    | OtherException => undefined     (* no handler: the exception leaves the function *)
    end.

(** ** The same function cut at its writes to the globals *)

(** Where a thread inside [startupFcitx] stands. *)
Inductive Pc :=
  | AtEntry (a : StartupArgs)      (* line 71 *)
  | AtSetenv (a : StartupArgs)     (* lines 77-91 *)
  | AtNewInstance                  (* lines 129-130 *)
  | AtNewDispatcher                (* lines 131-132 *)
  | AtSchedule                     (* line 134 *)
  | InExec                         (* line 152 *)
  | InSetupItem (uuid : ICUUID)    (* line 148, inside the scheduled lambda *)
  | AtResetLog (code : Z)          (* line 52 *)
  | AtResetInstance (code : Z)     (* line 53 *)
  | AtResetDispatcher (code : Z)   (* line 54 *)
  | AtResetFrontend (code : Z)     (* line 55 *)
  | Done (code : Z)                (* returned *)
  | Unwound.                       (* left by an exception no handler took *)

Inductive Move :=
  | Stmt
  | Exec (e : ExecEvent)
  | Leave (o : ExecOutcome).

(** One turn of the event loop on the thread of startup: as [dispatch],
    with the setup item stopped between its two writes to the globals. *)
Definition serve (fresh : ICUUID) : M Pc :=
  fun w =>
    match p_dispatcher w with
    | Some d =>
        if attached d then
          match queue d with
          | ItemSetup :: rest =>
              (modify (set_dispatcher (Some {| attached := attached d; queue := rest |})) ;;;
               setup_item_to_line_147 fresh ;;;
               ret (InSetupItem fresh)) w
          | item :: rest =>
              (modify (set_dispatcher (Some {| attached := attached d; queue := rest |})) ;;;
               run_item item fresh ;;;
               ret InExec) w
          | [] => Some (InExec, w)
          end
        else Some (InExec, w)
    | None => Some (InExec, w)
    end.

(** One move of the thread; a move that does not apply where the thread
    stands leaves everything as it is. *)
Definition startup_step (m : Move) (pc : Pc) : M Pc :=
  match pc, m with
  | AtEntry a, Stmt =>
      i <- get p_instance ;;
      if negb (is_null i) then jniLog "fcitx already running" ;;; ret (Done 2)
      else jniLog "startupFcitx" ;;; ret (AtSetenv a)
  | AtSetenv a, Stmt => establish_environment a ;;; ret AtNewInstance
  | AtNewInstance, Stmt => construct_instance ;;; ret AtNewDispatcher
  | AtNewDispatcher, Stmt => construct_dispatcher ;;; ret AtSchedule
  | AtSchedule, Stmt => schedule ItemSetup ;;; _ <- the_instance ;; ret InExec
  | InExec, Exec (Dispatch fresh) => serve fresh
  | InExec, Exec e => exec_event e ;;; ret InExec
  | InSetupItem uuid, Stmt => modify (set_uuid uuid) ;;; ret InExec
  | InExec, Leave (Returned code) => ret (AtResetLog code)
  | InExec, Leave InstanceQuietQuit => ret (AtResetLog 0)
  | InExec, Leave (StdException what) =>
      jniLog "fcitx exited with exception:" ;;;
      jniLog what ;;;
      ret (AtResetLog 1)
  | InExec, Leave OtherException => ret Unwound
  | AtResetLog code, Stmt => reset_log ;;; ret (AtResetInstance code)
  | AtResetInstance code, Stmt => reset_instance ;;; ret (AtResetDispatcher code)
  | AtResetDispatcher code, Stmt => reset_dispatcher ;;; ret (AtResetFrontend code)
  | AtResetFrontend code, Stmt => reset_frontend ;;; ret (Done code)
  | _, _ => ret pc
  end.

Fixpoint startup_steps (ms : list Move) (pc : Pc) : M Pc :=
  match ms with
  | [] => ret pc
  | m :: ms' => pc' <- startup_step m pc ;; startup_steps ms' pc'
  end.

(** ** The guarded operations cut at their reads of the globals

    [DO_IF_NOT_RUNNING] takes no lock: it reads the three pointers one
    after the other, stopping at the first that is null, and what follows
    the macro reads them again. *)

(** What follows the macro in each operation, with the value returned
    ([None] for [void]). *)
Definition guarded_body (op : HostOp) : M (option bool) :=
  match op with
  | OpExit =>
      jniLog "shutting down fcitx" ;;;
      schedule ItemExit ;;;
      ret None
  | OpSendKeyString key =>
      let k := GetStringUTFChars key in
      let parsedKey := Key_parse k in
      schedule (ItemKey parsedKey) ;;;
      ret None
  | OpSendKeyChar c behind =>
      let parsedKey := Key_parse (char_as_c_string c behind) in
      schedule (ItemKey parsedKey) ;;;
      ret None
  | OpSelectCandidate idx =>
      jniLog ("select candidate #" +:+ to_string idx) ;;;
      schedule (ItemSelect idx) ;;;
      ret None
  | OpIsInputPanelEmpty =>
      f <- the_frontend ;;
      ret (Some (inputPanelEmpty f))
  | OpResetInputPanel =>
      schedule ItemResetPanel ;;;
      ret None
  end.

(** The [expr] of the macro. *)
Definition safe_default (op : HostOp) : option bool :=
  match op with
  | OpIsInputPanelEmpty => Some true
  | _ => None
  end.

(** The operation run with nothing in between. *)
Definition guarded_call (op : HostOp) : M (option bool) :=
  DO_IF_NOT_RUNNING (safe_default op) (guarded_body op).

(** Where a thread inside a guarded operation stands. *)
Inductive CallPc :=
  | AtInstanceTest (op : HostOp)     (* p_instance == nullptr *)
  | AtDispatcherTest (op : HostOp)   (* || p_dispatcher == nullptr *)
  | AtFrontendTest (op : HostOp)     (* || p_frontend == nullptr *)
  | AtWarning (op : HostOp)          (* jniLog("fcitx is not running!"); expr *)
  | AtBody (op : HostOp)             (* past the guard *)
  | CallDone (answer : option bool). (* returned *)

Definition call_step (pc : CallPc) : M CallPc :=
  match pc with
  | AtInstanceTest op =>
      i <- get p_instance ;;
      ret (if is_null i then AtWarning op else AtDispatcherTest op)
  | AtDispatcherTest op =>
      d <- get p_dispatcher ;;
      ret (if is_null d then AtWarning op else AtFrontendTest op)
  | AtFrontendTest op =>
      f <- get p_frontend ;;
      ret (if is_null f then AtWarning op else AtBody op)
  | AtWarning op =>
      jniLog "fcitx is not running!" ;;;
      ret (CallDone (safe_default op))
  | AtBody op =>
      r <- guarded_body op ;;
      ret (CallDone r)
  | CallDone r => ret (CallDone r)
  end.


(** ** Threads side by side *)

Record Config := { world : World; threads : list Pc; callers : list CallPc }.

Inductive Action :=
  | CallStartup (a : StartupArgs)       (* a host thread enters startupFcitx *)
  | Advance (tid : nat) (m : Move)      (* that thread makes its next move *)
  | Enter (op : HostOp)                 (* a host thread enters a guarded operation *)
  | Proceed (cid : nat).                (* that thread makes its next read, or runs on *)

Definition act (a : Action) (c : Config) : option Config :=
  match a with
  | CallStartup args =>
      Some {| world := world c; threads := threads c ++ [AtEntry args];
              callers := callers c |}
  | Advance tid m =>
      match threads c !! tid with
      | Some pc =>
          match startup_step m pc (world c) with
          | Some (pc', w') =>
              Some {| world := w'; threads := <[tid := pc']> (threads c);
                      callers := callers c |}
          | None => None
          end
      | None => Some c
      end
  | Enter op =>
      Some {| world := world c; threads := threads c;
              callers := callers c ++ [AtInstanceTest op] |}
  | Proceed cid =>
      match callers c !! cid with
      | Some pc =>
          match call_step pc (world c) with
          | Some (pc', w') =>
              Some {| world := w'; threads := threads c;
                      callers := <[cid := pc']> (callers c) |}
          | None => None
          end
      | None => Some c
      end
  end.

Fixpoint run (acts : list Action) (c : Config) : option Config :=
  match acts with
  | [] => Some c
  | a :: acts' => match act a c with Some c' => run acts' c' | None => None end
  end.

Definition boot (env0 : gmap string string) : Config :=
  {| world := process_start env0; threads := []; callers := [] |}.

(** ** What a guarded operation can see of the handle *)

Definition uuid_is_set (u : ICUUID) : bool := negb (bool_decide (u = ICUUID_zero)).

Definition fully_set (w : World) : bool :=
  negb (is_null (p_instance w)) && negb (is_null (p_dispatcher w))
  && negb (is_null (p_frontend w)) && uuid_is_set (p_uuid w).

Definition fully_unset (w : World) : bool :=
  is_null (p_instance w) && is_null (p_dispatcher w)
  && is_null (p_frontend w) && negb (uuid_is_set (p_uuid w)).

(** The three owning pointers all null, whatever [p_uuid] holds. *)
Definition pointers_null (w : World) : bool :=
  is_null (p_instance w) && is_null (p_dispatcher w) && is_null (p_frontend w).

Definition relayed (bytes : list ascii) : LogEntry :=
  {| prio := ANDROID_LOG_DEBUG; tag := "fcitx5";
     text := read_c_string (strip_newline bytes ++ [NUL]) |}.

Definition two_lines : list ascii :=
  list_ascii_of_string "a" ++ [newline] ++ list_ascii_of_string "b" ++ [newline].

(** The string of the one byte that a code unit below 256 holds. *)
Definition one_byte_string (c : Z) : jstring :=
  String (ascii_of_N (Z.to_N c)) EmptyString.

(** The payload as the specification encodes it for the host: the
    discriminant and the strings of the event, in order. *)
Definition host_encoding (ev : NotificationEvent) : HostEvent :=
  match ev with
  | CandidateList l => {| kind := 0; vararg := map Some l |}
  | CommitString s => {| kind := 1; vararg := [Some s] |}
  | Preedit p c => {| kind := 2; vararg := [Some p; Some c] |}
  | AuxText u d => {| kind := 3; vararg := [Some u; Some d] |}
  end.

Definition event_strings (ev : NotificationEvent) : list string :=
  match ev with
  | CandidateList l => l
  | CommitString s => [s]
  | Preedit p c => [p; c]
  | AuxText u d => [u; d]
  end.

(** No string of the payload holds a NUL byte. *)
Definition event_nul_free (ev : NotificationEvent) : bool :=
  forallb nul_free (event_strings ev).

(** The number of strings fits the [int] that sizes the array. *)
Definition event_fits (ev : NotificationEvent) : bool :=
  (Z.of_nat (length (event_strings ev)) <? 2 ^ 31)%Z.

(** The event with every string cut at its first NUL. *)
Definition cut_event (ev : NotificationEvent) : NotificationEvent :=
  match ev with
  | CandidateList l => CandidateList (map c_str l)
  | CommitString s => CommitString (c_str s)
  | Preedit p c => Preedit (c_str p) (c_str c)
  | AuxText u d => AuxText (c_str u) (c_str d)
  end.

Definition deliver (e : HostEvent) (w : World) : World :=
  set_hostEvents (hostEvents w ++ [e]) w.

(** A line [jniLog] leaves in the log, and the world with it added. *)
Definition jni_line (s : string) : LogEntry :=
  {| prio := ANDROID_LOG_DEBUG; tag := "JNI"; text := c_str s |}.

Definition logged (s : string) (w : World) : World :=
  set_logcat (logcat w ++ [jni_line s]) w.

(** The dispatcher with one more item at the back of its queue. *)
Definition enqueued (item : WorkItem) (d : EventDispatcher) : EventDispatcher :=
  {| attached := attached d; queue := queue d ++ [item] |}.

(** A sample call and the world it reaches once the setup item has run. *)
Definition sample_args : StartupArgs :=
  {| appData := "/data/app"; appLib := "/data/app/lib"; extData := "/data/ext" |}.

Definition sample_uuid : ICUUID := replicate 16 7%Z.

Definition live_world : World :=
  match startup_steps [Stmt; Stmt; Stmt; Stmt; Stmt; Exec (Dispatch sample_uuid); Stmt]
          (AtEntry sample_args) (process_start ∅) with
  | Some (_, w) => w
  | None => process_start ∅
  end.

(** The eight variables of lines 77-91 and the values they get. *)
Definition derived_environment (a : StartupArgs) : list (string * string) :=
  [ ("SKIP_FCITX_PATH", "true");
    ("HOME", c_str (extData a));
    ("XDG_DATA_DIRS", c_str (appData a));
    ("XDG_CONFIG_HOME", c_str (extData a));
    ("XDG_DATA_HOME", c_str (extData a));
    ("FCITX_ADDON_DIRS", c_str (appLib a));
    ("LIBIME_MODEL_DIRS", c_str (appData a) +:+ "/fcitx5/libime");
    ("LIBIME_INSTALL_PKGDATADIR", c_str (appData a) +:+ "/fcitx5/libime") ].

(** The environment after lines 77-91, over the one found. *)
Definition established (a : StartupArgs) (e : gmap string string) : gmap string string :=
  <["LIBIME_INSTALL_PKGDATADIR" := c_str (appData a) +:+ "/fcitx5/libime"]>
  (<["LIBIME_MODEL_DIRS" := c_str (appData a) +:+ "/fcitx5/libime"]>
  (<["FCITX_ADDON_DIRS" := c_str (appLib a)]>
  (<["XDG_DATA_HOME" := c_str (extData a)]>
  (<["XDG_CONFIG_HOME" := c_str (extData a)]>
  (<["XDG_DATA_DIRS" := c_str (appData a)]>
  (<["HOME" := c_str (extData a)]>
  (<["SKIP_FCITX_PATH" := "true"]> e))))))).

(** The engine as lines 129-130 leave it. *)
Definition Instance_ready : Instance :=
  {| argv := [""]; defaultLoaderRegistered := true;
     currentGroup := {| inputMethodList := []; defaultInputMethod := "" |};
     exitRequested := false;
     androidfrontend := androidfrontend (Instance_new [""]) |}.

(** The world when [startupFcitx] reaches [exec]: the log line, the
    environment, the instance, the attached dispatcher with the setup item
    waiting. *)
Definition ready_world (a : StartupArgs) (w : World) : World :=
  set_dispatcher (Some {| attached := true; queue := [ItemSetup] |})
    (set_instance (Some Instance_ready)
      (set_environ (established a (environ w)) (logged "startupFcitx" w))).

(** The world [resetGlobalPointers] leaves when it runs to its end. *)
Definition reset_world (w : World) : World :=
  set_frontend None (set_dispatcher None (set_instance None (logged "resetGlobalPointers" w))).

(** The world when the thread has executed lines 52-54 and stands at line
    55. *)
Definition at_line_55 (w : World) : World :=
  set_dispatcher None
    (frontend_dangles (set_instance None (logged "resetGlobalPointers" w))).

(** The value lines 153-163 return for each way [exec] comes back; there
    is none when the exception passes both handlers. *)
Definition return_code (o : ExecOutcome) : option Z :=
  match o with
  | Returned code => Some code
  | InstanceQuietQuit => Some 0%Z
  | StdException _ => Some 1%Z
  | OtherException => None
  end.

(** Lines 153-163: what follows the return of [exec]. *)
Definition after_exec (r : ExecOutcome) : M Z :=
  match r with
  | Returned code => resetGlobalPointers ;;; ret code
  | InstanceQuietQuit => resetGlobalPointers ;;; ret 0%Z
  | StdException what =>
      jniLog "fcitx exited with exception:" ;;;
      jniLog what ;;;
      resetGlobalPointers ;;;
      ret 1%Z
  | OtherException => undefined
  end.

(** The world when the thread comes to [resetGlobalPointers]: the handler
    of [std::exception] has written its two lines. *)
Definition handled_world (o : ExecOutcome) (w : World) : World :=
  match o with
  | StdException what => logged what (logged "fcitx exited with exception:" w)
  | _ => w
  end.

Definition is_setup (item : WorkItem) : bool :=
  match item with
  | ItemSetup => true
  | _ => false
  end.

(** What holds of the globals from the call of [exec] to its return in a
    call that found no instance and no frontend: the instance and the
    dispatcher are there and the addon is the engine's alone or shared
    with a [p_frontend] that does not dangle; until the setup item has
    run the frontend is null and the item is the one thing queued, and
    it is not queued again. *)
Definition exec_ok (w : World) : bool :=
  match p_instance w, p_dispatcher w with
  | Some i, Some d =>
      negb (deleted (androidfrontend i))
      && match p_frontend w with
         | None =>
             attached d
             && match queue d with
                | [ItemSetup] => true
                | _ => false
                end
         | Some ptr =>
             negb (dangling ptr) && forallb (fun item => negb (is_setup item)) (queue d)
         end
  | _, _ => false
  end.

(** The candidate lists the addon fires fit the array size. *)
Definition concurrent_fits (c : Concurrent) : bool :=
  match c with
  | Engine (Notify ev) => event_fits ev
  | _ => true
  end.

(** The handle as the specification wants a guarded operation to find it. *)
Definition handle_consistent (w : World) : bool := fully_set w || fully_unset w.

(** A first thread inside startup, stopped after line 132. *)
Definition startup_through_line_132 : list Action :=
  [CallStartup sample_args; Advance 0 Stmt; Advance 0 Stmt; Advance 0 Stmt; Advance 0 Stmt].

(** The same thread taken on: line 134, the setup item served, [exec]
    back with code 0, and [resetGlobalPointers] entered up to line 53. *)
Definition startup_through_line_53 : list Action :=
  startup_through_line_132
  ++ [Advance 0 Stmt; Advance 0 (Exec (Dispatch sample_uuid)); Advance 0 Stmt;
      Advance 0 (Leave (Returned 0)); Advance 0 Stmt; Advance 0 Stmt].

(** And on over line 54, to stand at line 55. *)
Definition startup_through_line_54 : list Action :=
  startup_through_line_53 ++ [Advance 0 Stmt].

(** The same thread with [exec] left by an exception no handler takes,
    and moved on as often as the reset has statements. *)
Definition startup_other_exception : list Action :=
  startup_through_line_132
  ++ [Advance 0 Stmt; Advance 0 (Exec (Dispatch sample_uuid)); Advance 0 Stmt;
      Advance 0 (Leave OtherException);
      Advance 0 Stmt; Advance 0 Stmt; Advance 0 Stmt; Advance 0 Stmt].


(** A thread that enters [exitFcitx] with the handle live, reads the three
    pointers, and runs its body only when startup has executed line 54. *)
Definition exit_across_reset : list Action :=
  startup_through_line_132
  ++ [Advance 0 Stmt; Advance 0 (Exec (Dispatch sample_uuid)); Advance 0 Stmt;
      Enter OpExit; Proceed 0; Proceed 0; Proceed 0;
      Advance 0 (Leave (Returned 0)); Advance 0 Stmt; Advance 0 Stmt; Advance 0 Stmt].

(** The moves of the thread for what the engine does during [exec]; a
    turn of the loop may be the setup item, which takes a second move. *)
Definition moves_of (e : ExecEvent) : list Move :=
  match e with
  | Dispatch fresh => [Exec (Dispatch fresh); Stmt]
  | _ => [Exec e]
  end.

(** One call of startup laid out in moves: the statements up to [exec],
    what the engine does meanwhile, the return of [exec] and the four
    statements of the reset. *)
Definition whole_call (events : list ExecEvent) (o : ExecOutcome) : list Move :=
  repeat Stmt 5 ++ concat (map moves_of events) ++ Leave o :: repeat Stmt 4.

Definition single (pc : Pc) (w : World) : Config :=
  {| world := w; threads := [pc]; callers := [] |}.

(** ** One startup at a time

    A host that calls startup again only after the previous call has
    returned: which of the pointers are set at each statement of the one
    thread that may be inside startup. *)
Definition is_done (pc : Pc) : bool :=
  match pc with Done _ => true | _ => false end.

Definition shape (pc : Pc) (w : World) : bool :=
  match pc with
  | AtEntry _ | AtSetenv _ | AtNewInstance | Done _ => pointers_null w
  | AtNewDispatcher =>
      negb (is_null (p_instance w)) && is_null (p_dispatcher w) && is_null (p_frontend w)
  | AtSchedule =>
      negb (is_null (p_instance w)) && negb (is_null (p_dispatcher w))
      && is_null (p_frontend w)
  | InExec | AtResetLog _ | AtResetInstance _ | Unwound =>
      negb (is_null (p_instance w)) && negb (is_null (p_dispatcher w))
  | InSetupItem _ => negb (not_running w)
  | AtResetDispatcher _ => is_null (p_instance w) && negb (is_null (p_dispatcher w))
  | AtResetFrontend _ => is_null (p_instance w) && is_null (p_dispatcher w)
  end.

Inductive config_ok (c : Config) : Prop :=
  | ok_idle : threads c = [] -> pointers_null (world c) = true -> config_ok c
  | ok_active (older : list Pc) (pc : Pc) :
      threads c = older ++ [pc] ->
      forallb is_done older = true ->
      shape pc (world c) = true ->
      config_ok c.

Definition permitted (a : Action) (c : Config) : bool :=
  match a with
  | CallStartup _ => forallb is_done (threads c)
  | _ => true
  end.

Fixpoint one_startup_at_a_time (acts : list Action) (c : Config) : bool :=
  match acts with
  | [] => true
  | a :: rest =>
      permitted a c
      && match act a c with
         | Some c' => one_startup_at_a_time rest c'
         | None => true
         end
  end.

(** Two worlds with the same pointers null. *)
Definition same_nulls (w w' : World) : Prop :=
  is_null (p_instance w') = is_null (p_instance w)
  /\ is_null (p_dispatcher w') = is_null (p_dispatcher w)
  /\ is_null (p_frontend w') = is_null (p_frontend w).

(** From one world to the other no pointer was cleared, and of the
    instance and the dispatcher none was set either. *)
Definition none_cleared (w w' : World) : Prop :=
  is_null (p_instance w') = is_null (p_instance w)
  /\ is_null (p_dispatcher w') = is_null (p_dispatcher w)
  /\ (is_null (p_frontend w) = false -> is_null (p_frontend w') = false).

(** A computation that, when it comes back, has kept the worlds related. *)
Definition keeps {A} (R : World -> World -> Prop) (m : M A) : Prop :=
  forall w a w', m w = Some (a, w') -> R w w'.



(** The statements of [resetGlobalPointers]. *)
Definition in_reset (pc : Pc) : bool :=
  match pc with
  | AtResetLog _ | AtResetInstance _ | AtResetDispatcher _ | AtResetFrontend _ => true
  | _ => false
  end.

(** The value a thread past the try block holds for its return. *)
Definition carried (pc : Pc) : option Z :=
  match pc with
  | AtResetLog code | AtResetInstance code | AtResetDispatcher code
  | AtResetFrontend code | Done code => Some code
  | _ => None
  end.


(** The machine after those moves. *)
Definition after_line_53 : Config :=
  match run startup_through_line_53 (boot ∅) with
  | Some c => c
  | None => boot ∅
  end.


(** * Properties *)

(** ** C strings *)

Lemma read_c_string_app_nul (l r : list ascii) :
  read_c_string (l ++ NUL :: r) = read_c_string (l ++ [NUL]).
Proof.
  induction l as [|c l IH]; simpl; [reflexivity|].
  destruct (Ascii.eqb c NUL); [reflexivity|]. now rewrite IH.
Qed.

Lemma c_str_nul_free (s : string) : nul_free s = true -> c_str s = s.
Proof.
  unfold c_str. induction s as [|c s IH]; simpl; [reflexivity|].
  intros H. apply andb_prop in H as [Hc Hs].
  destruct (Ascii.eqb c NUL); [discriminate|]. now rewrite IH.
Qed.

Lemma c_str_idempotent (s : string) : c_str (c_str s) = c_str s.
Proof.
  apply c_str_nul_free. unfold c_str.
  induction s as [|c s IH]; simpl; [reflexivity|].
  destruct (Ascii.eqb c NUL) eqn:E; simpl; [reflexivity|].
  now rewrite E, IH.
Qed.

(** ** Log relay *)

(** A read places its bytes at the front of the buffer. *)
Lemma sys_read_delivered (bytes buf : list ascii) :
  length bytes <= BUF_SIZE - 1 -> length buf = BUF_SIZE ->
  sys_read (Delivered bytes) (BUF_SIZE - 1) buf
  = (Z.of_nat (length bytes), bytes ++ drop (length bytes) buf).
Proof.
  intros Hb Hbuf. unfold sys_read. now rewrite take_ge by exact Hb.
Qed.

(** One turn of the loop forwards the bytes just read, cut at a trailing
    newline, and keeps the buffer's size. *)
Lemma relay_one_spec (bytes buf : list ascii) (sink : list LogEntry) :
  0 < length bytes <= BUF_SIZE - 1 -> length buf = BUF_SIZE ->
  exists buf',
    relay_one (Z.of_nat (length bytes)) (bytes ++ drop (length bytes) buf) sink
    = (buf', sink ++ [relayed bytes]) /\ length buf' = BUF_SIZE.
Proof.
  intros [Hpos Hle] Hbuf. unfold relay_one, relayed, android_log_write, BUF_SIZE in *.
  replace (Z.to_nat (Z.of_nat (length bytes) - 1)) with (pred (length bytes)) by lia.
  rewrite lookup_app_l by lia. rewrite <- last_lookup.
  assert (Hdrop : exists c r, drop (length bytes) buf = c :: r).
  { destruct (drop (length bytes) buf) as [|c r] eqn:E; [|eauto].
    apply (f_equal length) in E. rewrite length_drop in E. simpl in E. lia. }
  destruct Hdrop as (c & r & Hdrop). rewrite Hdrop.
  unfold strip_newline.
  destruct (last bytes) as [x|] eqn:Hlast.
  - destruct (decide (Some x = Some newline)) as [Heq|Hne].
    + injection Heq as ->. rewrite decide_True by reflexivity.
      apply last_Some in Hlast as [l' ->]. rewrite length_app. simpl.
      replace (Z.to_nat (Z.of_nat (length l' + 1) - 1)) with (length l' + 0) by lia.
      replace (length l' + 1 - 1) with (length l') by lia.
      rewrite take_app_length. rewrite <- app_assoc. simpl.
      rewrite insert_app_r. simpl. eexists. split.
      * rewrite read_c_string_app_nul. reflexivity.
      * rewrite length_app. simpl.
        apply (f_equal length) in Hdrop. rewrite length_drop, length_app in Hdrop.
        simpl in Hdrop. lia.
    + rewrite decide_False by congruence.
      replace (Z.to_nat (Z.of_nat (length bytes))) with (length bytes + 0) by lia.
      rewrite insert_app_r. simpl. eexists. split.
      * rewrite read_c_string_app_nul. reflexivity.
      * rewrite length_app. simpl.
        apply (f_equal length) in Hdrop. rewrite length_drop in Hdrop.
        simpl in Hdrop. lia.
  - rewrite last_None in Hlast. subst bytes. simpl in Hpos. lia.
Qed.

Lemma logger_thread_chunks (chunks : list (list ascii)) :
  Forall (fun bytes => 0 < length bytes <= BUF_SIZE - 1) chunks ->
  forall (buf : list ascii) (sink : list LogEntry),
    length buf = BUF_SIZE ->
    logger_thread (map Delivered chunks) buf sink = sink ++ map relayed chunks.
Proof.
  induction 1 as [|bytes chunks Hb _ IH]; intros buf sink Hbuf; simpl map.
  - now rewrite app_nil_r.
  - cbn [logger_thread]. rewrite sys_read_delivered by (lia || assumption).
    destruct (Z.ltb_spec 0 (Z.of_nat (length bytes))) as [_|Hneg]; [|lia].
    destruct (relay_one_spec bytes buf sink Hb Hbuf) as (buf' & -> & Hlen).
    rewrite IH by exact Hlen. now rewrite <- app_assoc.
Qed.

(** C9, amended: every successful read of the relay (1 to 127 bytes in a
    128-byte buffer) is forwarded exactly once, as one message under the
    label "fcitx5", holding the bytes of that read up to their first NUL
    with one trailing newline removed; newlines inside a read are not cut.
    A read of "hello\n" forwards "hello" once. *)
Theorem logger_thread_forwards_each_read (chunks : list (list ascii)) (buf : list ascii) :
  length buf = BUF_SIZE ->
  Forall (fun bytes => 0 < length bytes <= BUF_SIZE - 1) chunks ->
  logger_thread (map Delivered chunks) buf [] = map relayed chunks
  /\ logger_thread [Delivered hello_nl] buf []
     = [ {| prio := ANDROID_LOG_DEBUG; tag := "fcitx5"; text := "hello" |} ].
Proof.
  intros Hbuf Hall. split.
  - now rewrite logger_thread_chunks.
  - rewrite (logger_thread_chunks [hello_nl]); [reflexivity| |exact Hbuf].
    constructor; [|constructor]. unfold BUF_SIZE. simpl. lia.
Qed.

Lemma logger_thread_forwards_each_read_witness :
  logger_thread (map Delivered [two_lines; hello_nl]) (replicate BUF_SIZE "x"%char) []
  = map relayed [two_lines; hello_nl]
  /\ logger_thread [Delivered hello_nl] (replicate BUF_SIZE "x"%char) []
     = [ {| prio := ANDROID_LOG_DEBUG; tag := "fcitx5"; text := "hello" |} ].
Proof.
  apply (logger_thread_forwards_each_read [two_lines; hello_nl] (replicate BUF_SIZE "x"%char)).
  - reflexivity.
  - repeat constructor; unfold BUF_SIZE; simpl; lia.
Defined.

(** C9 as stated fails: a read that holds two lines is forwarded as one
    message with the inner newline kept, where cutting the stream at its
    newlines gives two lines. *)
Lemma logger_thread_keeps_inner_newlines :
  map text (logger_thread [Delivered two_lines] (replicate BUF_SIZE NUL) [])
  = [String "a" (String newline "b")]
  /\ spec_lines [] (stream_of [Delivered two_lines]) = ["a"; "b"]
  /\ map text (logger_thread [Delivered two_lines] (replicate BUF_SIZE NUL) [])
     <> spec_lines [] (stream_of [Delivered two_lines]).
Proof.
  split; [reflexivity|]. split; [reflexivity|]. discriminate.
Qed.

(** ** The character overload of send-key *)

Lemma ascii_of_N_is_nul (n : N) :
  (n < 256)%N -> Ascii.eqb (ascii_of_N n) NUL = (n =? 0)%N.
Proof.
  intros Hn. destruct (N.eqb_spec n 0) as [->|Hne]; [reflexivity|].
  apply Ascii.eqb_neq. intros Heq. apply Hne.
  rewrite <- (N_ascii_embedding n Hn), Heq. reflexivity.
Qed.

Lemma low_byte (c : Z) : (0 <= c)%Z -> Z.land c 255 = (c mod 256)%Z.
Proof. intros _. change 255%Z with (Z.ones 8). now rewrite Z.land_ones by lia. Qed.

Lemma high_byte (c : Z) :
  (0 <= c < 65536)%Z -> Z.land (Z.shiftr c 8) 255 = (c / 256)%Z.
Proof.
  intros Hc. change 255%Z with (Z.ones 8).
  rewrite Z.land_ones, Z.shiftr_div_pow2 by lia.
  change (2 ^ 8)%Z with 256%Z. apply Z.mod_small.
  split; [apply Z.div_pos; lia | apply Z.div_lt_upper_bound; lia].
Qed.

(** A code unit below 256 lies in memory as its byte and then a NUL. *)
Lemma jchar_bytes_small (c : Z) :
  (0 <= c < 256)%Z -> jchar_bytes c = [ascii_of_N (Z.to_N c); NUL].
Proof.
  intros Hc. unfold jchar_bytes.
  rewrite low_byte, high_byte by lia.
  rewrite Z.mod_small, Z.div_small by lia. reflexivity.
Qed.

Lemma char_as_c_string_small (c : Z) (behind : list ascii) :
  (0 <= c < 256)%Z -> char_as_c_string c behind = c_str (one_byte_string c).
Proof.
  intros Hc. unfold char_as_c_string, c_str, one_byte_string.
  rewrite jchar_bytes_small by exact Hc. simpl.
  destruct (Ascii.eqb (ascii_of_N (Z.to_N c)) NUL); reflexivity.
Qed.

(** With both bytes of the value non-zero the read goes on behind it. *)
Lemma char_as_c_string_runs_on (c : Z) (behind : list ascii) :
  (256 <= c < 65536)%Z -> Z.land c 255 <> 0%Z ->
  char_as_c_string c behind
  = String (ascii_of_N (Z.to_N (Z.land c 255)))
      (String (ascii_of_N (Z.to_N (Z.land (Z.shiftr c 8) 255))) (read_c_string behind)).
Proof.
  intros Hc Hlow. unfold char_as_c_string, jchar_bytes. simpl.
  assert (Hl : (0 < Z.land c 255 < 256)%Z).
  { rewrite low_byte in * by lia. pose proof (Z.mod_pos_bound c 256). lia. }
  assert (Hh : (0 < Z.land (Z.shiftr c 8) 255 < 256)%Z).
  { rewrite high_byte by lia. split.
    - apply Z.div_str_pos. lia.
    - apply Z.div_lt_upper_bound; lia. }
  rewrite !ascii_of_N_is_nul by lia.
  destruct (N.eqb_spec (Z.to_N (Z.land c 255)) 0); [lia|].
  destruct (N.eqb_spec (Z.to_N (Z.land (Z.shiftr c 8) 255)) 0); [lia|].
  reflexivity.
Qed.

Lemma char_as_c_string_low_zero (c : Z) (behind : list ascii) :
  Z.land c 255 = 0%Z -> char_as_c_string c behind = "".
Proof. intros H. unfold char_as_c_string, jchar_bytes. rewrite H. reflexivity. Qed.

(** C10, amended: for a code unit below 256 the character overload
    schedules the key that the string overload parses from the one-byte
    string.  For a code unit of 256 or more whose low byte is not zero the
    two bytes of the value hold no NUL and the descriptor read depends on
    the memory behind it; when the low byte is zero the low byte itself
    ends the string and the descriptor is empty. *)
Theorem sendKeyToFcitxChar_descriptor (c : Z) :
  (0 <= c < 65536)%Z ->
  ((c < 256)%Z -> forall behind w,
      sendKeyToFcitxChar c behind w = sendKeyToFcitxString (one_byte_string c) w)
  /\ ((256 <= c)%Z -> Z.land c 255 <> 0%Z ->
      exists behind1 behind2, char_as_c_string c behind1 <> char_as_c_string c behind2)
  /\ ((256 <= c)%Z -> Z.land c 255 = 0%Z ->
      forall behind, char_as_c_string c behind = "").
Proof.
  intros Hc. repeat split.
  - intros Hsmall behind w. unfold sendKeyToFcitxChar, sendKeyToFcitxString, GetStringUTFChars.
    now rewrite char_as_c_string_small by lia.
  - intros Hbig Hlow. exists [], ["x"%char].
    rewrite !char_as_c_string_runs_on by (lia || assumption). simpl. congruence.
  - intros _ Hlow behind. now apply char_as_c_string_low_zero.
Qed.

Lemma sendKeyToFcitxChar_descriptor_witness :
  (forall behind w,
      sendKeyToFcitxChar 97 behind w = sendKeyToFcitxString (one_byte_string 97) w)
  /\ exists behind1 behind2, char_as_c_string 353 behind1 <> char_as_c_string 353 behind2.
Proof.
  split.
  - apply (sendKeyToFcitxChar_descriptor 97); lia.
  - apply (sendKeyToFcitxChar_descriptor 353); [lia | lia | discriminate].
Defined.

(** C10 as stated fails at code unit 256, whose bytes are 0 and 1: the low
    byte ends the string, so what is read is the same whatever lies behind
    the value. *)
Lemma sendKeyToFcitxChar_256_is_determined :
  (256 <= 256 < 65536)%Z
  /\ (forall behind1 behind2, char_as_c_string 256 behind1 = char_as_c_string 256 behind2)
  /\ ~ (exists behind1 behind2, char_as_c_string 256 behind1 <> char_as_c_string 256 behind2).
Proof.
  split; [lia|]. split; [reflexivity|].
  intros (b1 & b2 & H). apply H. reflexivity.
Qed.

(** ** Callback marshaling *)

Lemma to_int32_small (z : Z) : (0 <= z < 2 ^ 31)%Z -> to_int32 z = z.
Proof.
  intros Hz. unfold to_int32.
  rewrite Z.mod_small by lia. lia.
Qed.

Lemma SetObjectArrayElement_next (filled : jobjectArray) (n : nat) (v : jstring) (w : World) :
  SetObjectArrayElement (filled ++ replicate (S n) None) (Z.of_nat (length filled)) v w
  = Some ((filled ++ [Some v]) ++ replicate n None, w).
Proof.
  unfold SetObjectArrayElement.
  rewrite length_app, length_replicate.
  destruct (Z.leb_spec 0 (Z.of_nat (length filled))) as [_|]; [|lia].
  destruct (Z.ltb_spec (Z.of_nat (length filled)) (Z.of_nat (length filled + S n))) as [_|];
    [|lia].
  cbn [andb]. unfold ret. rewrite Nat2Z.id.
  rewrite <- (Nat.add_0_r (length filled)) at 1.
  unfold jobjectArray, jstring in *.
  rewrite insert_app_r. simpl. now rewrite <- app_assoc.
Qed.

(** The loop fills the array from where its counter stands. *)
Lemma fill_candidates_spec (l : list string) :
  forall (filled : jobjectArray) (w : World),
    (Z.of_nat (length filled + length l) < 2 ^ 31)%Z ->
    fill_candidates l (Z.of_nat (length filled)) (filled ++ replicate (length l) None) w
    = Some (filled ++ map Some (map c_str l), w).
Proof.
  induction l as [|s l IH]; intros filled w Hfit; simpl.
  - reflexivity.
  - simpl in Hfit. unfold bind at 1.
    rewrite to_int32_small by lia.
    change (None :: replicate (length l) None)
      with (replicate (S (length l)) (@None jstring)).
    rewrite SetObjectArrayElement_next.
    replace (Z.of_nat (length filled) + 1)%Z
      with (Z.of_nat (length (filled ++ [Some (NewStringUTF (c_str s))])))
      by (rewrite length_app; simpl; lia).
    rewrite IH by (rewrite length_app; simpl; lia).
    now rewrite <- app_assoc.
Qed.

(** Each callback hands the host its discriminant and the strings of the
    payload, each cut at its first NUL. *)
Lemma callback_of_spec (ev : NotificationEvent) (w : World) :
  event_fits ev = true ->
  callback_of ev w = Some (tt, deliver (host_encoding (cut_event ev)) w).
Proof.
  intros Hfit. destruct ev as [l|s|p c|u d]; try reflexivity.
  unfold event_fits in Hfit. simpl in Hfit. apply Z.ltb_lt in Hfit.
  unfold callback_of, candidateListCallback, NewObjectArray, bind.
  rewrite to_int32_small by lia.
  destruct (Z.ltb_spec (Z.of_nat (length l)) 0) as [|_]; [lia|].
  unfold ret. rewrite Nat2Z.id.
  pose proof (fill_candidates_spec l [] w) as Hfill.
  change (Z.of_nat (length (@nil (option jstring)))) with 0%Z in Hfill.
  simpl app in Hfill. rewrite Hfill by (simpl; lia). reflexivity.
Qed.

Lemma cut_event_nul_free (ev : NotificationEvent) :
  event_nul_free ev = true -> cut_event ev = ev.
Proof.
  unfold event_nul_free.
  destruct ev as [l|s|p c|u d]; simpl; intros H.
  - f_equal. induction l as [|s l IH]; simpl in *; [reflexivity|].
    apply andb_prop in H as [Hs Hl]. now rewrite c_str_nul_free, IH.
  - rewrite andb_true_r in H. now rewrite c_str_nul_free.
  - rewrite andb_true_r in H. apply andb_prop in H as [Hp Hc].
    now rewrite !c_str_nul_free.
  - rewrite andb_true_r in H. apply andb_prop in H as [Hu Hd].
    now rewrite !c_str_nul_free.
Qed.

(** C7, amended: for a notification whose strings hold no NUL byte (and
    whose candidates number fewer than 2^31, the range of the array size)
    the host entry point receives exactly the payload the addon produced:
    kind 0 with the candidates in order, as many as there are; kind 1 with
    one string; kind 2 and kind 3 with the two strings in (primary,
    secondary) order. *)
Theorem callback_delivers_payload (ev : NotificationEvent) (w : World) :
  event_nul_free ev = true ->
  event_fits ev = true ->
  callback_of ev w = Some (tt, deliver (host_encoding ev) w)
  /\ length (vararg (host_encoding ev)) = length (event_strings ev)
  /\ vararg (host_encoding ev) = map Some (event_strings ev).
Proof.
  intros Hnul Hfit. split; [|split].
  - rewrite callback_of_spec by exact Hfit. now rewrite cut_event_nul_free.
  - destruct ev; simpl; try reflexivity. apply length_map.
  - destruct ev; reflexivity.
Qed.

Lemma callback_delivers_payload_witness :
  callback_of (CandidateList ["ni"; "hao"]) (process_start ∅)
  = Some (tt, deliver {| kind := 0; vararg := [Some "ni"; Some "hao"] |} (process_start ∅))
  /\ length [Some "ni"; Some "hao"] = 2
  /\ [Some "ni"; Some "hao"] = map Some ["ni"; "hao"].
Proof.
  apply (callback_delivers_payload (CandidateList ["ni"; "hao"]) (process_start ∅));
    reflexivity.
Defined.

(** Past the range of [int] the size of the array comes out negative and
    the callback has no array to fill. *)
Lemma candidateListCallback_overflows (l : list string) (w : World) :
  Z.of_nat (length l) = (2 ^ 31)%Z -> candidateListCallback l w = None.
Proof.
  intros H. unfold candidateListCallback, bind. rewrite H.
  change (to_int32 (2 ^ 31)) with (- 2 ^ 31)%Z. reflexivity.
Qed.

(** C7 as stated fails for a committed string with a NUL inside: the host
    receives the bytes before the NUL only. *)
Lemma commitStringCallback_cuts_at_nul :
  callback_of (CommitString (String "a" (String NUL "b"))) (process_start ∅)
  = Some (tt, deliver {| kind := 1; vararg := [Some "a"] |} (process_start ∅))
  /\ callback_of (CommitString (String "a" (String NUL "b"))) (process_start ∅)
     <> Some (tt, deliver (host_encoding (CommitString (String "a" (String NUL "b"))))
                    (process_start ∅)).
Proof.
  split; [reflexivity|]. vm_compute. discriminate.
Qed.

(** ** Guarded operations *)

(** Unfolding the monad one function at a time. *)
Ltac mstep := unfold bind, ret, get; cbv beta iota.
Ltac mrew L := rewrite L; cbv beta iota.

Lemma jniLog_spec (s : string) (w : World) : jniLog s w = Some (tt, logged s w).
Proof. reflexivity. Qed.

Lemma not_running_false (w : World) :
  not_running w = false ->
  exists i d f, p_instance w = Some i /\ p_dispatcher w = Some d /\ p_frontend w = Some f.
Proof.
  unfold not_running.
  destruct (p_instance w) as [i|], (p_dispatcher w) as [d|], (p_frontend w) as [f|];
    simpl; try discriminate.
  intros _. now exists i, d, f.
Qed.

Lemma schedule_spec (item : WorkItem) (d : EventDispatcher) (w : World) :
  p_dispatcher w = Some d ->
  schedule item w = Some (tt, set_dispatcher (Some (enqueued item d)) w).
Proof. intros H. unfold schedule, bind, the_dispatcher. now rewrite H. Qed.

Lemma guard_fires {A} (expr : A) (rest : M A) (w : World) :
  not_running w = true ->
  DO_IF_NOT_RUNNING expr rest w = Some (expr, logged "fcitx is not running!" w).
Proof. intros H. unfold DO_IF_NOT_RUNNING. now rewrite H. Qed.

Lemma host_call_not_running (op : HostOp) (w : World) :
  not_running w = true ->
  host_call op w = Some (tt, logged "fcitx is not running!" w).
Proof.
  intros H. destruct op; cbn [host_call];
    unfold exitFcitx, sendKeyToFcitxString, sendKeyToFcitxChar, selectCandidate,
      isInputPanelEmpty, resetInputPanel;
    try (now apply guard_fires).
  mstep. now rewrite guard_fires.
Qed.

(** C3: with the handle not live every guarded operation comes back with
    its safe default and nothing but the warning in the log: the query
    answers true, the commands do nothing, and none of them is undefined. *)
Theorem guarded_operations_when_not_running (w : World) :
  not_running w = true ->
  isInputPanelEmpty w = Some (true, logged "fcitx is not running!" w)
  /\ exitFcitx w = Some (tt, logged "fcitx is not running!" w)
  /\ (forall key, sendKeyToFcitxString key w = Some (tt, logged "fcitx is not running!" w))
  /\ (forall c behind,
        sendKeyToFcitxChar c behind w = Some (tt, logged "fcitx is not running!" w))
  /\ (forall idx, selectCandidate idx w = Some (tt, logged "fcitx is not running!" w))
  /\ resetInputPanel w = Some (tt, logged "fcitx is not running!" w).
Proof.
  intros H.
  unfold isInputPanelEmpty, exitFcitx, sendKeyToFcitxString, sendKeyToFcitxChar,
    selectCandidate, resetInputPanel, DO_IF_NOT_RUNNING.
  rewrite H. repeat split.
Qed.

Lemma guarded_operations_when_not_running_witness :
  isInputPanelEmpty (process_start ∅)
  = Some (true, logged "fcitx is not running!" (process_start ∅))
  /\ exitFcitx (process_start ∅) = Some (tt, logged "fcitx is not running!" (process_start ∅)).
Proof.
  destruct (guarded_operations_when_not_running (process_start ∅)) as (H1 & H2 & _).
  - reflexivity.
  - split; [exact H1 | exact H2].
Defined.

(** C6: with the handle live, shutdown logs and appends exactly one item
    to the dispatcher's queue, leaving the instance and the dispatcher's
    attachment as they were: the item has not run when the call returns.
    Run by the loop, that item detaches the dispatcher and asks the
    instance to exit.  With the handle not live the call only warns. *)
Theorem exitFcitx_submits_one_item (w : World) :
  (not_running w = false ->
     exists d w', p_dispatcher w = Some d
       /\ exitFcitx w = Some (tt, w')
       /\ w' = set_dispatcher (Some (enqueued ItemExit d)) (logged "shutting down fcitx" w)
       /\ p_dispatcher w' = Some {| attached := attached d; queue := queue d ++ [ItemExit] |}
       /\ p_instance w' = p_instance w)
  /\ (not_running w = true ->
     exitFcitx w = Some (tt, logged "fcitx is not running!" w))
  /\ (forall fresh i d, p_instance w = Some i -> p_dispatcher w = Some d ->
     run_item ItemExit fresh w
     = Some (tt, set_instance (Some (Instance_exit i))
                   (set_dispatcher (Some (EventDispatcher_detach d)) w))).
Proof.
  split; [|split].
  - intros H. destruct (not_running_false w H) as (i & d & f & Hi & Hd & Hf).
    exists d. eexists. split; [exact Hd|]. split; [|split; [reflexivity|split; reflexivity]].
    unfold exitFcitx, DO_IF_NOT_RUNNING. rewrite H.
    unfold bind at 1. rewrite jniLog_spec.
    now rewrite (schedule_spec ItemExit d).
  - intros H. unfold exitFcitx, DO_IF_NOT_RUNNING. now rewrite H.
  - intros fresh i d Hi Hd. simpl.
    unfold exit_item, bind, the_dispatcher, update_instance, bind, the_instance, modify.
    rewrite Hd. simpl. now rewrite Hi.
Qed.

Lemma exitFcitx_submits_one_item_witness :
  exists d, p_dispatcher live_world = Some d
    /\ exitFcitx live_world
       = Some (tt, set_dispatcher (Some (enqueued ItemExit d))
                     (logged "shutting down fcitx" live_world)).
Proof.
  destruct (exitFcitx_submits_one_item live_world) as (H & _).
  destruct H as (d & w' & Hd & He & -> & _).
  - vm_compute. reflexivity.
  - exists d. split; [exact Hd | exact He].
Defined.

(** ** Startup: the already-running path and the environment *)

Lemma startupFcitx_running (a : StartupArgs) (during : list Concurrent) (o : ExecOutcome)
    (w : World) :
  is_null (p_instance w) = false ->
  startupFcitx a during o w = Some (2%Z, logged "fcitx already running" w)
  /\ startup_step Stmt (AtEntry a) w = Some (Done 2, logged "fcitx already running" w).
Proof.
  intros H. unfold startupFcitx, startup_step. mstep. rewrite H. split; reflexivity.
Qed.

(** C2: with an instance already there, startup returns 2 and changes
    nothing but the log, which gains the line "fcitx already running": the
    environment, the four fields of the handle with the engine state
    behind them, and the host's events are what they were. *)
Theorem startupFcitx_already_running
    (a : StartupArgs) (during : list Concurrent) (o : ExecOutcome) (w : World) :
  is_null (p_instance w) = false ->
  exists w',
    startupFcitx a during o w = Some (2%Z, w')
    /\ w' = logged "fcitx already running" w
    /\ environ w' = environ w
    /\ p_instance w' = p_instance w
    /\ p_dispatcher w' = p_dispatcher w
    /\ p_frontend w' = p_frontend w
    /\ p_uuid w' = p_uuid w
    /\ hostEvents w' = hostEvents w
    /\ startup_step Stmt (AtEntry a) w = Some (Done 2, w').
Proof.
  intros H. exists (logged "fcitx already running" w).
  destruct (startupFcitx_running a during o w H) as [Hcall Hstep].
  repeat split; assumption.
Qed.

Lemma startupFcitx_already_running_witness :
  exists w',
    startupFcitx sample_args [] (Returned 0) live_world = Some (2%Z, w')
    /\ w' = logged "fcitx already running" live_world.
Proof.
  destruct (startupFcitx_already_running sample_args [] (Returned 0) live_world)
    as (w' & H1 & H2 & _).
  - vm_compute. reflexivity.
  - exists w'. split; [exact H1 | exact H2].
Defined.

Lemma setenv_overwrite (name value : string) (w : World) :
  setenv name value 1 w
  = Some (tt, set_environ (<[c_str name := c_str value]> (environ w)) w).
Proof.
  unfold setenv, modify. destruct (environ w !! c_str name); reflexivity.
Qed.

(** The same on a world whose environment was just replaced. *)
Lemma setenv_again (name value : string) (e : gmap string string) (w : World) :
  setenv name value 1 (set_environ e w)
  = Some (tt, set_environ (<[c_str name := c_str value]> e) w).
Proof. rewrite setenv_overwrite. reflexivity. Qed.

Lemma environ_set_environ (e : gmap string string) (w : World) :
  environ (set_environ e w) = e.
Proof. reflexivity. Qed.

Lemma nul_free_c_str (s : string) : nul_free (c_str s) = true.
Proof.
  unfold c_str. induction s as [|c s IH]; simpl; [reflexivity|].
  destruct (Ascii.eqb c NUL) eqn:E; simpl; [reflexivity|]. now rewrite E.
Qed.

Lemma nul_free_append (s t : string) :
  nul_free (s +:+ t) = nul_free s && nul_free t.
Proof.
  induction s as [|c s IH]; simpl; [reflexivity|].
  now rewrite IH, andb_assoc.
Qed.

Lemma c_str_libime_data (s : string) :
  c_str (c_str s +:+ "/fcitx5/libime") = c_str s +:+ "/fcitx5/libime".
Proof.
  apply c_str_nul_free.
  rewrite nul_free_append, nul_free_c_str. reflexivity.
Qed.

(** The environment after lines 77-91: the eight variables written in the
    order of the source over the environment found. *)
Lemma establish_environment_spec (a : StartupArgs) (w : World) :
  establish_environment a w = Some (tt, set_environ (established a (environ w)) w).
Proof.
  unfold establish_environment, GetStringUTFChars.
  unfold bind at 1. rewrite setenv_overwrite.
  do 6 (unfold bind at 1; rewrite setenv_again).
  rewrite setenv_again.
  rewrite !c_str_idempotent, !c_str_libime_data.
  reflexivity.
Qed.

(** *** The statements of startup one by one *)

Lemma step_entry_fresh (a : StartupArgs) (w : World) :
  is_null (p_instance w) = true ->
  startup_step Stmt (AtEntry a) w = Some (AtSetenv a, logged "startupFcitx" w).
Proof. intros H. cbn [startup_step]. mstep. now rewrite H. Qed.

Lemma step_setenv (a : StartupArgs) (w : World) :
  startup_step Stmt (AtSetenv a) w
  = Some (AtNewInstance, set_environ (established a (environ w)) w).
Proof. cbn [startup_step]. mstep. now mrew establish_environment_spec. Qed.

(** Assigning to a null pointer deletes nothing. *)
Lemma assign_instance_null (v : option Instance) (w : World) :
  is_null (p_instance w) = true ->
  assign_instance v w = Some (tt, set_instance v w).
Proof.
  intros H. unfold assign_instance, modify. mstep.
  destruct (p_instance w); [discriminate|reflexivity].
Qed.

Lemma assign_frontend_null (v : option AddonPtr) (w : World) :
  is_null (p_frontend w) = true ->
  assign_frontend v w = Some (tt, set_frontend v w).
Proof.
  intros H. unfold assign_frontend, modify. mstep.
  destruct (p_frontend w); [discriminate|reflexivity].
Qed.

Lemma construct_instance_spec (w : World) :
  is_null (p_instance w) = true ->
  construct_instance w = Some (tt, set_instance (Some Instance_ready) w).
Proof.
  intros H. unfold construct_instance. unfold bind at 1.
  now rewrite (assign_instance_null _ w H).
Qed.

Lemma construct_dispatcher_spec (w : World) :
  is_null (p_instance w) = false ->
  construct_dispatcher w
  = Some (tt, set_dispatcher (Some {| attached := true; queue := [] |}) w).
Proof.
  intros H. unfold construct_dispatcher, the_instance, the_dispatcher, modify. mstep.
  cbn [set_dispatcher p_dispatcher p_instance].
  destruct (p_instance w); [reflexivity|discriminate].
Qed.

Lemma steps_cons (m : Move) (ms : list Move) (pc pc' : Pc) (w w' : World) :
  startup_step m pc w = Some (pc', w') ->
  startup_steps (m :: ms) pc w = startup_steps ms pc' w'.
Proof. intros H. cbn [startup_steps]. mstep. now rewrite H. Qed.

Lemma step_new_instance (w : World) :
  is_null (p_instance w) = true ->
  startup_step Stmt AtNewInstance w
  = Some (AtNewDispatcher, set_instance (Some Instance_ready) w).
Proof.
  intros H. cbn [startup_step]. unfold bind. now rewrite (construct_instance_spec w H).
Qed.

(** C8: every call of startup either finds an instance and returns at
    once, constructing none and leaving the environment alone, or has, at
    the statement that constructs the instance, all eight variables set
    from its three paths with the instance still absent; the construction
    that follows leaves the environment as established. *)
Theorem environment_before_instance (a : StartupArgs) (w : World) :
  (is_null (p_instance w) = false ->
     exists w', startup_step Stmt (AtEntry a) w = Some (Done 2, w')
       /\ p_instance w' = p_instance w /\ environ w' = environ w)
  /\ (is_null (p_instance w) = true ->
     exists w1 w2,
       startup_steps [Stmt; Stmt] (AtEntry a) w = Some (AtNewInstance, w1)
       /\ is_null (p_instance w1) = true
       /\ Forall (fun nv => environ w1 !! nv.1 = Some nv.2) (derived_environment a)
       /\ startup_step Stmt AtNewInstance w1 = Some (AtNewDispatcher, w2)
       /\ is_null (p_instance w2) = false
       /\ environ w2 = environ w1).
Proof.
  split; intros H.
  - exists (logged "fcitx already running" w).
    split; [apply (startupFcitx_running a [] (Returned 0) w H)|]. split; reflexivity.
  - exists (set_environ (established a (environ w)) (logged "startupFcitx" w)).
    exists (set_instance (Some Instance_ready)
              (set_environ (established a (environ w)) (logged "startupFcitx" w))).
    split; [|split; [exact H|split; [|split; [|split; reflexivity]]]].
    + rewrite (steps_cons _ _ _ _ _ _ (step_entry_fresh a w H)).
      rewrite (steps_cons _ _ _ _ _ _ (step_setenv a _)). reflexivity.
    + rewrite environ_set_environ. unfold derived_environment, established.
      repeat constructor; cbn [fst snd]; simplify_map_eq; reflexivity.
    + apply step_new_instance. exact H.
Qed.

Lemma environment_before_instance_witness :
  (exists w', startup_step Stmt (AtEntry sample_args) live_world = Some (Done 2, w')
     /\ p_instance w' = p_instance live_world /\ environ w' = environ live_world)
  /\ exists w1 w2,
       startup_steps [Stmt; Stmt] (AtEntry sample_args) (process_start ∅)
       = Some (AtNewInstance, w1)
       /\ is_null (p_instance w1) = true
       /\ Forall (fun nv => environ w1 !! nv.1 = Some nv.2)
            (derived_environment sample_args)
       /\ startup_step Stmt AtNewInstance w1 = Some (AtNewDispatcher, w2)
       /\ is_null (p_instance w2) = false
       /\ environ w2 = environ w1.
Proof.
  destruct (environment_before_instance sample_args live_world) as [Hrunning _].
  destruct (environment_before_instance sample_args (process_start ∅)) as [_ Hfresh].
  split.
  - apply Hrunning. vm_compute. reflexivity.
  - apply Hfresh. reflexivity.
Defined.

(** ** Between the call of [exec] and its return *)

(** A guarded operation run at once is defined there and keeps what
    holds during [exec]. *)
Lemma host_call_defined (op : HostOp) (w : World) :
  exec_ok w = true ->
  exists w', host_call op w = Some (tt, w') /\ exec_ok w' = true
    /\ p_frontend w' = p_frontend w.
Proof.
  intros Hok. destruct w as [pi pd pf pu en lc he]. unfold exec_ok in Hok. cbn in Hok.
  destruct pi as [i|]; [|discriminate]. destruct pd as [[att q]|]; [|discriminate].
  destruct pf as [[t dg]|].
  - destruct i as [av dl cg er [c1 c2 c3 c4 ics rc ipe del]]. cbn in Hok.
    destruct del; [discriminate|]. destruct dg; [discriminate|]. cbn in Hok.
    destruct op; unfold host_call, exitFcitx, sendKeyToFcitxString, sendKeyToFcitxChar,
      selectCandidate, isInputPanelEmpty, resetInputPanel, DO_IF_NOT_RUNNING,
      not_running, exec_ok; cbn;
    eexists; (split; [reflexivity|]); cbn;
    rewrite ?forallb_app, ?Hok; split; reflexivity.
  - destruct op; unfold host_call, exitFcitx, sendKeyToFcitxString, sendKeyToFcitxChar,
      selectCandidate, isInputPanelEmpty, resetInputPanel, DO_IF_NOT_RUNNING,
      not_running, exec_ok; cbn;
    eexists; (split; [reflexivity|]); cbn; (split; [exact Hok|reflexivity]).
Qed.

Lemma deliver_exec_ok (e : HostEvent) (w : World) : exec_ok (deliver e w) = exec_ok w.
Proof. reflexivity. Qed.

(** One turn of the loop keeps it as well: the setup item is served with
    the frontend null, and every other item with the frontend set. *)
Lemma dispatch_defined (fresh : ICUUID) (w : World) :
  exec_ok w = true ->
  exists w', dispatch fresh w = Some (tt, w') /\ exec_ok w' = true.
Proof.
  intros Hok. destruct w as [pi pd pf pu en lc he]. unfold exec_ok in Hok. cbn in Hok.
  destruct pi as [i|]; [|discriminate]. destruct pd as [[att q]|]; [|discriminate].
  destruct i as [av dl cg er [c1 c2 c3 c4 ics rc ipe del]]. cbn in Hok.
  destruct del; [discriminate|]. cbn in Hok.
  destruct pf as [[t dg]|].
  - destruct dg; [discriminate|]. cbn in Hok.
    unfold dispatch. cbn. destruct att.
    + destruct q as [|item rest].
      * eexists. split; [reflexivity|]. reflexivity.
      * cbn in Hok. apply andb_prop in Hok as [Hitem Hrest].
        destruct item; try discriminate; cbn;
          eexists; (split; [reflexivity|]); unfold exec_ok; cbn; exact Hrest.
    + eexists. split; [reflexivity|]. unfold exec_ok. cbn. exact Hok.
  - destruct att; [|discriminate]. cbn in Hok.
    destruct q as [|[] [|]]; try discriminate.
    unfold dispatch. cbn.
    eexists. split; [reflexivity|]. reflexivity.
Qed.

Lemma exec_ok_engine_frontend (w : World) :
  exec_ok w = true ->
  exists i, p_instance w = Some i /\ engine_frontend w = Some (androidfrontend i, w).
Proof.
  unfold exec_ok, engine_frontend, the_instance. mstep.
  destruct (p_instance w) as [i|]; [|discriminate].
  destruct (p_dispatcher w); [|discriminate].
  destruct (deleted (androidfrontend i)); [discriminate|].
  intros _. now exists i.
Qed.

Lemma exec_event_defined (e : ExecEvent) (w : World) :
  exec_ok w = true -> concurrent_fits (Engine e) = true ->
  exists w', exec_event e w = Some (tt, w') /\ exec_ok w' = true.
Proof.
  intros Hok Hfit. destruct e as [fresh|ev|b]; cbn [exec_event].
  - now apply dispatch_defined.
  - destruct (exec_ok_engine_frontend w Hok) as (i & Hi & He).
    unfold bind. rewrite He.
    destruct (callback_installed ev (androidfrontend i)).
    + rewrite callback_of_spec by exact Hfit. eexists. split; [reflexivity|].
      now rewrite deliver_exec_ok.
    + eexists. split; [reflexivity|exact Hok].
  - destruct (exec_ok_engine_frontend w Hok) as (i & Hi & He).
    unfold bind. rewrite He.
    destruct w as [pi pd pf pu en lc he]. cbn in Hi. subst pi.
    unfold update_instance, the_instance, modify, bind. cbn.
    eexists. split; [reflexivity|exact Hok].
Qed.

Lemma exec_phase_defined (during : list Concurrent) :
  forallb concurrent_fits during = true ->
  forall w, exec_ok w = true ->
  exists w', exec_phase during w = Some (tt, w') /\ exec_ok w' = true.
Proof.
  induction during as [|c during IH]; intros Hfit w Hok.
  - exists w. split; [reflexivity | exact Hok].
  - cbn [forallb] in Hfit. apply andb_prop in Hfit as [Hc Hrest].
    destruct c as [e|op]; cbn [exec_phase]; mstep.
    + destruct (exec_event_defined e w Hok Hc) as (w1 & -> & Hok1).
      now apply IH.
    + destruct (host_call_defined op w Hok) as (w1 & -> & Hok1 & _).
      apply IH; auto.
Qed.

Lemma exec_ok_instance (w : World) :
  exec_ok w = true ->
  exists i d, p_instance w = Some i /\ p_dispatcher w = Some d
    /\ deleted (androidfrontend i) = false
    /\ forall ptr, p_frontend w = Some ptr -> dangling ptr = false.
Proof.
  unfold exec_ok. destruct (p_instance w) as [i|]; [|discriminate].
  destruct (p_dispatcher w) as [d|]; [|discriminate].
  destruct (deleted (androidfrontend i)) eqn:Hdel; [discriminate|]. cbn.
  intros H. exists i, d. split; [reflexivity|]. split; [reflexivity|].
  split; [exact Hdel|]. intros ptr Hptr. rewrite Hptr in H.
  now destruct (dangling ptr).
Qed.

(** ** Startup from entry to return *)

(** A call that finds no instance reaches [exec] in [ready_world] and
    goes on with what follows its return. *)
Lemma startupFcitx_fresh (a : StartupArgs) (during : list Concurrent) (o : ExecOutcome)
    (w : World) :
  is_null (p_instance w) = true ->
  startupFcitx a during o w = (r <- exec during o ;; after_exec r) (ready_world a w).
Proof.
  intros H. unfold startupFcitx. mstep. rewrite H. cbn [negb].
  mrew jniLog_spec. mrew establish_environment_spec.
  rewrite construct_instance_spec by exact H. cbv beta iota.
  mrew construct_dispatcher_spec; [|reflexivity].
  rewrite (schedule_spec ItemSetup {| attached := true; queue := [] |}) by reflexivity.
  cbv beta iota. unfold ready_world.
  destruct (exec during o _) as [[r w1]|]; [|reflexivity].
  destruct r; reflexivity.
Qed.

Lemma ready_world_exec_ok (a : StartupArgs) (w : World) :
  is_null (p_frontend w) = true -> exec_ok (ready_world a w) = true.
Proof.
  intros H. unfold exec_ok, ready_world. cbn.
  destruct (p_frontend w); [discriminate|reflexivity].
Qed.

(** [exec] comes back, whatever the engine and the other threads did
    meanwhile, with the globals as they are during [exec]. *)
Lemma exec_defined (a : StartupArgs) (during : list Concurrent) (o : ExecOutcome)
    (w : World) :
  is_null (p_frontend w) = true ->
  forallb concurrent_fits during = true ->
  exists w1,
    exec_phase during (ready_world a w) = Some (tt, w1)
    /\ exec during o (ready_world a w) = Some (o, w1)
    /\ exec_ok w1 = true.
Proof.
  intros Hf Hfit.
  destruct (exec_phase_defined during Hfit (ready_world a w) (ready_world_exec_ok a w Hf))
    as (w1 & He & Hok).
  exists w1. split; [exact He|]. split; [|exact Hok].
  unfold exec, the_instance. mstep.
  change (p_instance (ready_world a w)) with (Some Instance_ready). cbv beta iota.
  now rewrite He.
Qed.

(** *** [resetGlobalPointers] statement by statement *)

Lemma at_line_55_fields (w : World) :
  is_null (p_instance (at_line_55 w)) = true
  /\ is_null (p_dispatcher (at_line_55 w)) = true
  /\ is_null (p_frontend (at_line_55 w)) = is_null (p_frontend w)
  /\ p_uuid (at_line_55 w) = p_uuid w
  /\ logcat (at_line_55 w) = logcat w ++ [jni_line "resetGlobalPointers"].
Proof.
  destruct w as [pi pd [ptr|] pu en lc he]; repeat split.
Qed.

(** Line 53 with the instance there and its addon not deleted under it:
    the instance goes and what [p_frontend] holds dangles. *)
Lemma reset_instance_spec (w : World) (i : Instance) :
  p_instance w = Some i -> deleted (androidfrontend i) = false ->
  reset_instance w = Some (tt, frontend_dangles (set_instance None w)).
Proof.
  intros Hi Hdel. unfold reset_instance, assign_instance, destroy_instance, bind, get, modify.
  rewrite Hi, Hdel. reflexivity.
Qed.

Lemma reset_to_line_55 (w : World) (i : Instance) :
  p_instance w = Some i -> deleted (androidfrontend i) = false ->
  (reset_log ;;; reset_instance ;;; reset_dispatcher) w = Some (tt, at_line_55 w).
Proof.
  intros Hi Hdel. unfold reset_log, bind. rewrite jniLog_spec.
  rewrite (reset_instance_spec (logged "resetGlobalPointers" w) i Hi Hdel).
  reflexivity.
Qed.

Lemma steps_to_line_55 (code : Z) (w : World) (i : Instance) :
  p_instance w = Some i -> deleted (androidfrontend i) = false ->
  startup_steps [Stmt; Stmt; Stmt] (AtResetLog code) w
  = Some (AtResetFrontend code, at_line_55 w).
Proof.
  intros Hi Hdel.
  rewrite (steps_cons _ _ _ (AtResetInstance code) _ (logged "resetGlobalPointers" w))
    by reflexivity.
  rewrite (steps_cons _ _ _ (AtResetDispatcher code) _
             (frontend_dangles (set_instance None (logged "resetGlobalPointers" w)))).
  - reflexivity.
  - cbn [startup_step]. unfold bind.
    now rewrite (reset_instance_spec (logged "resetGlobalPointers" w) i Hi Hdel).
Qed.

(** Line 55 with a frontend that was never set: nothing to delete. *)
Lemma line_55_clean (w : World) :
  is_null (p_frontend w) = true ->
  reset_frontend (at_line_55 w) = Some (tt, reset_world w).
Proof.
  intros H. unfold reset_frontend.
  rewrite assign_frontend_null by (now rewrite (proj1 (proj2 (proj2 (at_line_55_fields w))))).
  unfold at_line_55, frontend_dangles, reset_world. cbn.
  destruct (p_frontend w); [discriminate|reflexivity].
Qed.

(** Line 55 with the frontend the setup item set: the addon went with the
    instance at line 53, and [p_frontend] deletes it again. *)
Lemma line_55_double_delete (w : World) (ptr : AddonPtr) :
  p_frontend w = Some ptr ->
  reset_frontend (at_line_55 w) = None.
Proof.
  intros H. unfold reset_frontend, assign_frontend, at_line_55, frontend_dangles.
  mstep. cbn. rewrite H. reflexivity.
Qed.

Lemma resetGlobalPointers_spec (w : World) (i : Instance) :
  p_instance w = Some i -> deleted (androidfrontend i) = false ->
  resetGlobalPointers w
  = if is_null (p_frontend w) then Some (tt, reset_world w) else None.
Proof.
  intros Hi Hdel.
  assert (E : resetGlobalPointers w
              = match (reset_log ;;; reset_instance ;;; reset_dispatcher) w with
                | Some (_, w') => reset_frontend w'
                | None => None
                end).
  { unfold resetGlobalPointers, bind.
    destruct (reset_log w) as [[[] w1]|]; [|reflexivity].
    destruct (reset_instance w1) as [[[] w2]|]; [|reflexivity].
    destruct (reset_dispatcher w2) as [[[] w3]|]; reflexivity. }
  rewrite E, (reset_to_line_55 w i Hi Hdel).
  destruct (p_frontend w) as [ptr|] eqn:Hf; cbn [is_null].
  - now apply (line_55_double_delete w ptr).
  - apply line_55_clean. now rewrite Hf.
Qed.

Lemma handled_world_fields (o : ExecOutcome) (w : World) :
  p_instance (handled_world o w) = p_instance w
  /\ p_dispatcher (handled_world o w) = p_dispatcher w
  /\ p_frontend (handled_world o w) = p_frontend w
  /\ p_uuid (handled_world o w) = p_uuid w.
Proof. destruct o; repeat split. Qed.

(** The return of [exec] taken by the statement or the handler that
    fits. *)
Lemma leave_step (o : ExecOutcome) (code : Z) (w : World) :
  return_code o = Some code ->
  startup_step (Leave o) InExec w = Some (AtResetLog code, handled_world o w).
Proof. destruct o; cbn; intros H; try discriminate; injection H as <-; reflexivity. Qed.

Lemma after_exec_spec (o : ExecOutcome) (code : Z) (w : World) (i : Instance) :
  return_code o = Some code ->
  p_instance w = Some i -> deleted (androidfrontend i) = false ->
  after_exec o w
  = if is_null (p_frontend w) then Some (code, reset_world (handled_world o w)) else None.
Proof.
  intros Hc Hi Hdel.
  pose proof (resetGlobalPointers_spec (handled_world o w) i) as R.
  destruct (handled_world_fields o w) as (Ei & _ & Ef & _).
  rewrite Ei, Ef in R. specialize (R Hi Hdel).
  destruct o as [c| |what|]; cbn in Hc; try discriminate; injection Hc as <-;
    cbn [after_exec handled_world] in *; unfold bind; try rewrite !jniLog_spec;
    rewrite R; destruct (is_null (p_frontend w)); reflexivity.
Qed.

(** The slip of line 55: a call that found no instance and no frontend,
    and whose setup item was served, deletes the addon twice on every way
    back from [exec] through [resetGlobalPointers]. *)
Lemma startupFcitx_double_delete
    (a : StartupArgs) (during : list Concurrent) (o : ExecOutcome) (w w1 : World) :
  is_null (p_instance w) = true -> is_null (p_frontend w) = true ->
  forallb concurrent_fits during = true ->
  exec_phase during (ready_world a w) = Some (tt, w1) ->
  is_null (p_frontend w1) = false ->
  startupFcitx a during o w = None.
Proof.
  intros Hi Hf Hfit Hphase Hset.
  destruct (exec_defined a during o w Hf Hfit) as (w1' & Hphase' & Hexec & Hok).
  rewrite Hphase in Hphase'. injection Hphase' as <-.
  destruct (exec_ok_instance w1 Hok) as (i & d & Hi1 & _ & Hdel & _).
  rewrite (startupFcitx_fresh a during o w Hi). unfold bind. rewrite Hexec.
  destruct (return_code o) as [code|] eqn:Hc.
  - now rewrite (after_exec_spec o code w1 i Hc Hi1 Hdel), Hset.
  - destruct o; try discriminate. reflexivity.
Qed.

Lemma line_55_after_setup_undefined :
  run (startup_through_line_54 ++ [Advance 0 Stmt]) (boot ∅) = None
  /\ startupFcitx sample_args [Engine (Dispatch sample_uuid)] (Returned 0) (process_start ∅)
     = None.
Proof. vm_compute. split; reflexivity. Qed.

(** ** The function and its cut agree *)

Lemma steps_app (ms1 ms2 : list Move) (pc : Pc) (w : World) :
  startup_steps (ms1 ++ ms2) pc w
  = match startup_steps ms1 pc w with
    | Some (pc', w') => startup_steps ms2 pc' w'
    | None => None
    end.
Proof.
  revert pc w. induction ms1 as [|m ms1 IH]; intros pc w; [reflexivity|].
  cbn [app startup_steps]. unfold bind.
  destruct (startup_step m pc w) as [[pc' w']|]; [apply IH | reflexivity].
Qed.

(** A turn of the loop in one move or, for the setup item, in two. *)
Lemma steps_dispatch (fresh : ICUUID) (w : World) :
  startup_steps [Exec (Dispatch fresh); Stmt] InExec w
  = match dispatch fresh w with
    | Some (_, w') => Some (InExec, w')
    | None => None
    end.
Proof.
  cbn [startup_steps startup_step]. unfold serve, dispatch, bind.
  destruct (p_dispatcher w) as [[att q]|]; [|reflexivity].
  cbn [attached queue]. destruct att; [|reflexivity].
  destruct q as [|item rest]; [reflexivity|].
  destruct item; cbn [run_item];
    match goal with
    | |- context [modify ?f w] => change (modify f w) with (Some (tt, f w))
    end; cbv beta iota.
  - unfold setup_item, bind.
    destruct (setup_item_to_line_147 fresh _) as [[[] w1]|]; reflexivity.
  - destruct (exit_item _) as [[[] w1]|]; reflexivity.
  - destruct (bind _ _ _) as [[[] w1]|]; reflexivity.
  - destruct (bind _ _ _) as [[[] w1]|]; reflexivity.
  - destruct (bind _ _ _) as [[[] w1]|]; reflexivity.
Qed.

Lemma steps_moves_of (e : ExecEvent) (w : World) :
  startup_steps (moves_of e) InExec w
  = match exec_event e w with
    | Some (_, w') => Some (InExec, w')
    | None => None
    end.
Proof.
  destruct e as [fresh|ev|b]; cbn [moves_of exec_event].
  - apply steps_dispatch.
  - cbn [startup_steps startup_step exec_event]. unfold bind.
    destruct (engine_frontend w) as [[f w1]|]; [|reflexivity].
    destruct (callback_installed ev f); [|reflexivity].
    destruct (callback_of ev w1) as [[[] w2]|]; reflexivity.
  - cbn [startup_steps startup_step exec_event]. unfold bind.
    destruct (engine_frontend w) as [[f w1]|]; [|reflexivity].
    destruct (update_instance _ w1) as [[[] w2]|]; reflexivity.
Qed.

Lemma steps_during (events : list ExecEvent) :
  forall w,
    startup_steps (concat (map moves_of events)) InExec w
    = match exec_phase (map Engine events) w with
      | Some (_, w') => Some (InExec, w')
      | None => None
      end.
Proof.
  induction events as [|e events IH]; intros w; [reflexivity|].
  cbn [map concat exec_phase]. rewrite steps_app, steps_moves_of. unfold bind.
  destruct (exec_event e w) as [[[] w1]|]; [apply IH | reflexivity].
Qed.

Lemma steps_reset (code : Z) (w : World) :
  startup_steps [Stmt; Stmt; Stmt; Stmt] (AtResetLog code) w
  = match resetGlobalPointers w with
    | Some (_, w') => Some (Done code, w')
    | None => None
    end.
Proof.
  rewrite (steps_cons _ _ _ (AtResetInstance code) _ (logged "resetGlobalPointers" w))
    by reflexivity.
  assert (R : resetGlobalPointers w
              = match reset_instance (logged "resetGlobalPointers" w) with
                | Some (_, w2) => reset_frontend (set_dispatcher None w2)
                | None => None
                end).
  { unfold resetGlobalPointers, reset_log, bind. rewrite jniLog_spec.
    destruct (reset_instance _) as [[[] w2]|]; reflexivity. }
  rewrite R. clear R.
  destruct (reset_instance (logged "resetGlobalPointers" w)) as [[[] w2]|] eqn:E2.
  - rewrite (steps_cons _ _ _ (AtResetDispatcher code) _ w2)
      by (cbn [startup_step]; unfold bind; now rewrite E2).
    rewrite (steps_cons _ _ _ (AtResetFrontend code) _ (set_dispatcher None w2))
      by reflexivity.
    cbn [startup_steps startup_step]. unfold bind, reset_dispatcher, modify.
    destruct (reset_frontend _) as [[[] w4]|]; reflexivity.
  - cbn [startup_steps startup_step]. unfold bind. now rewrite E2.
Qed.

Lemma steps_after_exec (o : ExecOutcome) (code : Z) (w : World) :
  return_code o = Some code ->
  startup_steps (Leave o :: repeat Stmt 4) InExec w
  = match after_exec o w with
    | Some (code, w') => Some (Done code, w')
    | None => None
    end.
Proof.
  intros Hc. cbn [repeat].
  rewrite (steps_cons _ _ _ _ _ _ (leave_step o code w Hc)), steps_reset.
  destruct o as [c| |what|]; cbn in Hc; try discriminate; injection Hc as <-;
    cbn [after_exec handled_world]; unfold bind; rewrite ?jniLog_spec;
    match goal with
    | |- context [resetGlobalPointers ?x] =>
        destruct (resetGlobalPointers x) as [[[] w1]|]; reflexivity
    end.
Qed.

(** The thread alone, with the engine's events for company: its moves
    from entry to return give what the function gives. *)
Lemma steps_whole_call (a : StartupArgs) (events : list ExecEvent) (o : ExecOutcome)
    (code : Z) (w : World) :
  is_null (p_instance w) = true -> return_code o = Some code ->
  startup_steps (whole_call events o) (AtEntry a) w
  = match startupFcitx a (map Engine events) o w with
    | Some (code, w') => Some (Done code, w')
    | None => None
    end.
Proof.
  intros H Hc. unfold whole_call. cbn [repeat app].
  rewrite (steps_cons _ _ _ _ _ _ (step_entry_fresh a w H)).
  rewrite (steps_cons _ _ _ _ _ _ (step_setenv a _)).
  rewrite (steps_cons _ _ _ _ _ _
             (step_new_instance
                (set_environ (established a (environ w)) (logged "startupFcitx" w)) H)).
  rewrite (steps_cons _ _ _ AtSchedule _
             (set_dispatcher (Some {| attached := true; queue := [] |})
                (set_instance (Some Instance_ready)
                   (set_environ (established a (environ w)) (logged "startupFcitx" w)))))
    by reflexivity.
  rewrite (steps_cons _ _ _ InExec _ (ready_world a w)) by reflexivity.
  rewrite steps_app, steps_during, (startupFcitx_fresh a _ o w H).
  unfold exec, the_instance, bind.
  change (p_instance (ready_world a w)) with (Some Instance_ready). cbv beta iota.
  destruct (exec_phase (map Engine events) (ready_world a w)) as [[[] w1]|]; [|reflexivity].
  now apply (steps_after_exec o code).
Qed.


(** On the machine, a thread of startup alone makes the moves of the cut. *)
Lemma run_single (ms : list Move) :
  forall pc w,
    run (map (Advance 0) ms) (single pc w)
    = match startup_steps ms pc w with
      | Some (pc', w') => Some (single pc' w')
      | None => None
      end.
Proof.
  induction ms as [|m ms IH]; intros pc w; [reflexivity|].
  cbn [map run act single threads world lookup list_lookup startup_steps]. unfold bind.
  destruct (startup_step m pc w) as [[pc' w']|]; [apply IH | reflexivity].
Qed.

(** *** A guarded operation with nothing in between *)

Lemma host_call_guarded_call (op : HostOp) (w : World) :
  host_call op w
  = match guarded_call op w with
    | Some (_, w') => Some (tt, w')
    | None => None
    end.
Proof.
  unfold guarded_call, DO_IF_NOT_RUNNING.
  destruct op; cbn [host_call guarded_body safe_default];
    unfold exitFcitx, sendKeyToFcitxString, sendKeyToFcitxChar, selectCandidate,
      isInputPanelEmpty, resetInputPanel, DO_IF_NOT_RUNNING, bind;
    destruct (not_running w); try reflexivity.
  - rewrite jniLog_spec. destruct (schedule _ _) as [[[] w1]|]; reflexivity.
  - destruct (schedule _ _) as [[[] w1]|]; reflexivity.
  - destruct (schedule _ _) as [[[] w1]|]; reflexivity.
  - rewrite jniLog_spec. destruct (schedule _ _) as [[[] w1]|]; reflexivity.
  - destruct (the_frontend w) as [[f w1]|]; reflexivity.
  - destruct (schedule _ _) as [[[] w1]|]; reflexivity.
Qed.

(** The query answers what the operation run at once answers. *)
Lemma isInputPanelEmpty_guarded_call (w : World) :
  guarded_call OpIsInputPanelEmpty w
  = match isInputPanelEmpty w with
    | Some (b, w') => Some (Some b, w')
    | None => None
    end.
Proof.
  unfold guarded_call, isInputPanelEmpty, DO_IF_NOT_RUNNING, bind.
  cbn [guarded_body safe_default]. unfold bind.
  destruct (not_running w); [reflexivity|].
  destruct (the_frontend w) as [[f w1]|]; reflexivity.
Qed.


Lemma insert_last {A} (l : list A) (x y : A) : <[length l := y]> (l ++ [x]) = l ++ [y].
Proof. rewrite <- (Nat.add_0_r (length l)). now rewrite insert_app_r. Qed.



(** ** Which pointers are null, kept by what runs beside startup *)

#[local] Instance same_nulls_preorder : PreOrder same_nulls.
Proof.
  split.
  - intros w. repeat split.
  - intros w1 w2 w3 (A1 & A2 & A3) (B1 & B2 & B3).
    repeat split; congruence.
Qed.

#[local] Instance none_cleared_preorder : PreOrder none_cleared.
Proof.
  split.
  - intros w. repeat split. auto.
  - intros w1 w2 w3 (A1 & A2 & A3) (B1 & B2 & B3).
    repeat split; try congruence. auto.
Qed.

Lemma same_nulls_none_cleared (w w' : World) : same_nulls w w' -> none_cleared w w'.
Proof. intros (A1 & A2 & A3). repeat split; congruence. Qed.

Section Keeps.

Context (R : World -> World -> Prop) `{!PreOrder R}.

Lemma keeps_ret {A} (a : A) : keeps R (ret a).
Proof. intros w a' w' H. injection H as _ <-. reflexivity. Qed.

Lemma keeps_get {A} (f : World -> A) : keeps R (get f).
Proof. intros w a' w' H. injection H as _ <-. reflexivity. Qed.

Lemma keeps_undefined {A} : keeps R (@undefined A).
Proof. intros w a' w' H. discriminate. Qed.

Lemma keeps_modify (f : World -> World) : (forall w, R w (f w)) -> keeps R (modify f).
Proof. intros Hf w a' w' H. injection H as _ <-. apply Hf. Qed.

Lemma keeps_bind {A B} (m : M A) (k : A -> M B) :
  keeps R m -> (forall a, keeps R (k a)) -> keeps R (bind m k).
Proof.
  intros Hm Hk w b w' H. unfold bind in H.
  destruct (m w) as [[a w1]|] eqn:E; [|discriminate].
  transitivity w1; [exact (Hm w a w1 E) | exact (Hk a w1 b w' H)].
Qed.

End Keeps.

Lemma keeps_weaken {A} (R R' : World -> World -> Prop) (m : M A) :
  (forall w w', R w w' -> R' w w') -> keeps R m -> keeps R' m.
Proof. intros HR Hm w a w' H. apply HR. exact (Hm w a w' H). Qed.

Ltac kbind := first [apply (keeps_bind same_nulls) | apply (keeps_bind none_cleared)].
Ltac kret := first [apply (keeps_ret same_nulls) | apply (keeps_ret none_cleared)].
Ltac kget := first [apply (keeps_get same_nulls) | apply (keeps_get none_cleared)].
Ltac kweaken := apply (keeps_weaken same_nulls); [apply same_nulls_none_cleared|].

Lemma keeps_jniLog (s : string) : keeps same_nulls (jniLog s).
Proof. apply keeps_modify. intros w. repeat split. Qed.

Lemma keeps_the_instance : keeps same_nulls the_instance.
Proof.
  intros w a w' H. unfold the_instance in H.
  destruct (p_instance w); [|discriminate]. injection H as _ <-. reflexivity.
Qed.

Lemma keeps_the_dispatcher : keeps same_nulls the_dispatcher.
Proof.
  intros w a w' H. unfold the_dispatcher in H.
  destruct (p_dispatcher w); [|discriminate]. injection H as _ <-. reflexivity.
Qed.

Lemma keeps_the_frontend : keeps same_nulls the_frontend.
Proof.
  intros w a w' H. unfold the_frontend in H.
  destruct (p_frontend w) as [ptr|]; [|discriminate].
  destruct (p_instance w) as [i|]; [|discriminate].
  destruct (dangling ptr || deleted (androidfrontend i)); [discriminate|].
  injection H as _ <-. reflexivity.
Qed.

Lemma keeps_update_instance (f : Instance -> Instance) : keeps same_nulls (update_instance f).
Proof.
  intros w a w' H. unfold update_instance, bind, the_instance, modify in H.
  destruct (p_instance w) as [i|] eqn:Hi; [|discriminate]. injection H as _ <-.
  repeat split. cbn. now rewrite Hi.
Qed.

Lemma keeps_engine_frontend : keeps same_nulls engine_frontend.
Proof.
  kbind; [apply keeps_the_instance|]. intros i.
  destruct (deleted (androidfrontend i)); [apply keeps_undefined | kret].
Qed.

Lemma keeps_schedule (item : WorkItem) : keeps same_nulls (schedule item).
Proof.
  intros w a w' H. unfold schedule, bind, the_dispatcher, modify in H.
  destruct (p_dispatcher w) as [d|] eqn:Hd; [|discriminate]. injection H as _ <-.
  repeat split. cbn. now rewrite Hd.
Qed.

Lemma keeps_frontend_call (c : IAndroidFrontend.Call) : keeps same_nulls (frontend_call c).
Proof.
  kbind; [apply keeps_the_frontend|]. intros f. apply keeps_update_instance.
Qed.

Lemma keeps_exit_item : keeps same_nulls exit_item.
Proof.
  intros w a w' H. unfold exit_item, bind, the_dispatcher in H.
  destruct (p_dispatcher w) as [d|] eqn:Hd; [|discriminate].
  unfold modify in H.
  apply keeps_update_instance in H. etransitivity; [|exact H].
  repeat split. cbn. now rewrite Hd.
Qed.

Lemma SetObjectArrayElement_world (array array' : jobjectArray) (index : Z) (value : jstring)
    (w w' : World) :
  SetObjectArrayElement array index value w = Some (array', w') -> w' = w.
Proof.
  unfold SetObjectArrayElement. destruct (_ && _); [|discriminate].
  intros H. now injection H as _ <-.
Qed.

Lemma NewObjectArray_world (size : Z) (array : jobjectArray) (w w' : World) :
  NewObjectArray size w = Some (array, w') -> w' = w.
Proof.
  unfold NewObjectArray. destruct (size <? 0)%Z; [discriminate|].
  intros H. now injection H as _ <-.
Qed.

Lemma fill_candidates_world (l : list string) :
  forall (i : Z) (array array' : jobjectArray) (w w' : World),
    fill_candidates l i array w = Some (array', w') -> w' = w.
Proof.
  induction l as [|s l IH]; intros i array array' w w' H; cbn [fill_candidates] in H.
  - now injection H as _ <-.
  - unfold bind in H.
    destruct (SetObjectArrayElement array _ _ w) as [[a1 w1]|] eqn:E; [|discriminate].
    apply SetObjectArrayElement_world in E as ->. now apply IH in H.
Qed.

(** A callback writes to the host and nowhere else. *)
Lemma keeps_callback_of (ev : NotificationEvent) : keeps same_nulls (callback_of ev).
Proof.
  assert (Hcall : forall k arr, keeps same_nulls (CallStaticVoidMethod_handleFcitxEvent k arr)).
  { intros k arr. apply keeps_modify. intros w. repeat split. }
  assert (Hnew : forall size, keeps same_nulls (NewObjectArray size)).
  { intros size w a w' H. apply NewObjectArray_world in H as ->. reflexivity. }
  assert (Hset : forall arr i v, keeps same_nulls (SetObjectArrayElement arr i v)).
  { intros arr i v w a w' H. apply SetObjectArrayElement_world in H as ->. reflexivity. }
  assert (Hfill : forall l i arr, keeps same_nulls (fill_candidates l i arr)).
  { intros l i arr w a w' H. apply fill_candidates_world in H as ->. reflexivity. }
  destruct ev; cbn [callback_of];
    unfold candidateListCallback, commitStringCallback, preeditCallback,
      inputPanelAuxCallback;
    repeat (kbind; [|intros ?]); auto.
Qed.

Lemma keeps_delete_frontend (ptr : AddonPtr) : keeps same_nulls (delete_frontend ptr).
Proof.
  unfold delete_frontend. destruct (dangling ptr); [apply keeps_undefined|].
  kbind; [apply keeps_the_instance|]. intros i.
  destruct (deleted (androidfrontend i));
    [apply keeps_undefined | apply keeps_update_instance].
Qed.

(** Line 147 sets the frontend, whatever it held. *)
Lemma assign_frontend_some (v : AddonPtr) (w w' : World) :
  assign_frontend (Some v) w = Some (tt, w') ->
  same_nulls (set_frontend (Some v) w) w'.
Proof.
  unfold assign_frontend, bind, get, modify. intros H.
  destruct (p_frontend w) as [ptr|].
  - exact (keeps_delete_frontend ptr _ _ _ H).
  - injection H as <-. reflexivity.
Qed.

Lemma setup_item_to_line_147_sets (uuid : ICUUID) (w w' : World) :
  setup_item_to_line_147 uuid w = Some (tt, w') ->
  none_cleared w w' /\ is_null (p_frontend w') = false.
Proof.
  unfold setup_item_to_line_147. intros H. unfold bind at 1 in H.
  destruct (the_instance w) as [[i w0]|] eqn:E0; [|discriminate].
  apply keeps_the_instance in E0.
  unfold bind at 1 in H.
  destruct (update_instance _ w0) as [[[] w1]|] eqn:E1; [|discriminate].
  apply keeps_update_instance in E1.
  unfold bind at 1 in H.
  destruct (engine_frontend w1) as [[f w2]|] eqn:E2; [|discriminate].
  apply keeps_engine_frontend in E2.
  unfold bind at 1 in H.
  destruct (update_instance _ w2) as [[[] w3]|] eqn:E3; [|discriminate].
  apply keeps_update_instance in E3.
  apply assign_frontend_some in H.
  assert (E : same_nulls w w3) by (repeat (etransitivity; [eassumption|]); reflexivity).
  destruct E as (A1 & A2 & A3). destruct H as (B1 & B2 & B3). cbn in B1, B2, B3.
  repeat split; congruence.
Qed.

Lemma keeps_setup_item (uuid : ICUUID) : keeps none_cleared (setup_item uuid).
Proof.
  intros w [] w' H. unfold setup_item, bind in H.
  destruct (setup_item_to_line_147 uuid w) as [[[] w1]|] eqn:E; [|discriminate].
  apply setup_item_to_line_147_sets in E as [E _]. injection H as <-.
  etransitivity; [exact E|]. repeat split. auto.
Qed.

Lemma keeps_run_item (item : WorkItem) (fresh : ICUUID) :
  keeps none_cleared (run_item item fresh).
Proof.
  destruct item; cbn [run_item].
  - apply keeps_setup_item.
  - kweaken. apply keeps_exit_item.
  - kweaken. kbind; [kget|intros u; apply keeps_frontend_call].
  - kweaken. kbind; [kget|intros u; apply keeps_frontend_call].
  - kweaken. kbind; [kget|intros u; apply keeps_frontend_call].
Qed.

Lemma pop_item (d d' : EventDispatcher) (w : World) :
  p_dispatcher w = Some d ->
  none_cleared w (set_dispatcher (Some d') w).
Proof. intros Hd. repeat split; cbn; [now rewrite Hd | auto]. Qed.

Lemma keeps_dispatch (fresh : ICUUID) : keeps none_cleared (dispatch fresh).
Proof.
  intros w [] w' H. unfold dispatch in H.
  destruct (p_dispatcher w) as [d|] eqn:Hd; [|injection H as <-; reflexivity].
  destruct (attached d); [|injection H as <-; reflexivity].
  destruct (queue d) as [|item rest]; [injection H as <-; reflexivity|].
  unfold bind, modify in H. apply keeps_run_item in H.
  etransitivity; [|exact H]. now apply (pop_item d).
Qed.

(** Nothing the engine does during [exec] clears a pointer. *)
Lemma keeps_exec_event (e : ExecEvent) : keeps none_cleared (exec_event e).
Proof.
  destruct e as [fresh|ev|b]; cbn [exec_event].
  - apply keeps_dispatch.
  - kweaken. kbind; [apply keeps_engine_frontend|]. intros f.
    destruct (callback_installed ev f); [apply keeps_callback_of|kret].
  - kweaken. kbind; [apply keeps_engine_frontend|]. intros f.
    apply keeps_update_instance.
Qed.

(** Nor does the body of a guarded operation, which sets none either. *)
Lemma keeps_guarded_body (op : HostOp) : keeps same_nulls (guarded_body op).
Proof.
  destruct op; cbn [guarded_body]; cbv zeta.
  - kbind; [apply keeps_jniLog|intros _]. kbind; [apply keeps_schedule|intros _]. kret.
  - kbind; [apply keeps_schedule|intros _]. kret.
  - kbind; [apply keeps_schedule|intros _]. kret.
  - kbind; [apply keeps_jniLog|intros _]. kbind; [apply keeps_schedule|intros _]. kret.
  - kbind; [apply keeps_the_frontend|intros f]. kret.
  - kbind; [apply keeps_schedule|intros _]. kret.
Qed.

Lemma keeps_call_step (pc : CallPc) : keeps same_nulls (call_step pc).
Proof.
  destruct pc; cbn [call_step].
  - kbind; [kget|intros i; kret].
  - kbind; [kget|intros d; kret].
  - kbind; [kget|intros f; kret].
  - kbind; [apply keeps_jniLog|intros _; kret].
  - kbind; [apply keeps_guarded_body|intros r; kret].
  - kret.
Qed.

Lemma keeps_guarded_call (op : HostOp) : keeps same_nulls (guarded_call op).
Proof.
  intros w a w' H. unfold guarded_call, DO_IF_NOT_RUNNING in H.
  destruct (not_running w).
  - unfold bind in H. rewrite jniLog_spec in H. injection H as _ <-. repeat split.
  - exact (keeps_guarded_body op w a w' H).
Qed.

(** ** One startup at a time *)

Lemma shape_same_nulls (pc : Pc) (w w' : World) :
  same_nulls w w' -> shape pc w' = shape pc w.
Proof.
  intros (A & B & C).
  destruct pc; unfold shape, pointers_null, not_running; rewrite ?A, ?B, ?C; reflexivity.
Qed.

Lemma pointers_null_fields (w : World) :
  pointers_null w = true ->
  is_null (p_instance w) = true /\ is_null (p_dispatcher w) = true
  /\ is_null (p_frontend w) = true.
Proof.
  unfold pointers_null.
  destruct (is_null (p_instance w)), (is_null (p_dispatcher w)), (is_null (p_frontend w));
    try discriminate. now repeat split.
Qed.

Lemma in_exec_fields (w : World) :
  negb (is_null (p_instance w)) && negb (is_null (p_dispatcher w)) = true ->
  is_null (p_instance w) = false /\ is_null (p_dispatcher w) = false.
Proof.
  destruct (is_null (p_instance w)), (is_null (p_dispatcher w)); try discriminate.
  now split.
Qed.

(** A turn of the loop on the thread of startup clears nothing, and
    stops inside the setup item only with the frontend set. *)
Lemma serve_sets (fresh : ICUUID) (pc' : Pc) (w w' : World) :
  serve fresh w = Some (pc', w') ->
  none_cleared w w'
  /\ (pc' = InExec \/ (pc' = InSetupItem fresh /\ is_null (p_frontend w') = false)).
Proof.
  unfold serve. intros H.
  destruct (p_dispatcher w) as [d|] eqn:Hd;
    [|injection H as <- <-; split; [reflexivity|now left]].
  destruct (attached d); [|injection H as <- <-; split; [reflexivity|now left]].
  destruct (queue d) as [|item rest]; [injection H as <- <-; split; [reflexivity|now left]|].
  assert (Hpop : forall d', none_cleared w (set_dispatcher (Some d') w))
    by (intros d'; now apply (pop_item d)).
  destruct item; unfold bind, modify in H.
  - destruct (setup_item_to_line_147 fresh _) as [[[] w1]|] eqn:E; [|discriminate].
    injection H as <- <-. apply setup_item_to_line_147_sets in E as [E Hf].
    split; [etransitivity; [apply Hpop|exact E] | right; now split].
  - destruct (run_item _ fresh _) as [[[] w1]|] eqn:E; [|discriminate].
    injection H as <- <-. apply keeps_run_item in E.
    split; [etransitivity; [apply Hpop|exact E] | now left].
  - destruct (run_item _ fresh _) as [[[] w1]|] eqn:E; [|discriminate].
    injection H as <- <-. apply keeps_run_item in E.
    split; [etransitivity; [apply Hpop|exact E] | now left].
  - destruct (run_item _ fresh _) as [[[] w1]|] eqn:E; [|discriminate].
    injection H as <- <-. apply keeps_run_item in E.
    split; [etransitivity; [apply Hpop|exact E] | now left].
  - destruct (run_item _ fresh _) as [[[] w1]|] eqn:E; [|discriminate].
    injection H as <- <-. apply keeps_run_item in E.
    split; [etransitivity; [apply Hpop|exact E] | now left].
Qed.

(** Line 53 when it comes back: the instance is null, the dispatcher as
    it was. *)
Lemma reset_instance_post (w w' : World) :
  reset_instance w = Some (tt, w') ->
  is_null (p_instance w') = true /\ p_dispatcher w' = p_dispatcher w.
Proof.
  unfold reset_instance, assign_instance, bind, get, modify.
  destruct (p_instance w) as [i|].
  - unfold destroy_instance. destruct (deleted (androidfrontend i)); [discriminate|].
    unfold modify, frontend_dangles. cbn [p_frontend set_instance].
    destruct (p_frontend w); intros H; injection H as <-; split; reflexivity.
  - intros H. injection H as <-. split; reflexivity.
Qed.

(** Line 55 when it comes back with the instance gone: there was nothing
    to delete. *)
Lemma reset_frontend_post (w w' : World) :
  is_null (p_instance w) = true ->
  reset_frontend w = Some (tt, w') ->
  p_frontend w = None /\ w' = set_frontend None w.
Proof.
  intros Hi. unfold reset_frontend, assign_frontend, bind, get, modify.
  destruct (p_frontend w) as [ptr|].
  - unfold delete_frontend. destruct (dangling ptr); [discriminate|].
    unfold bind, the_instance. cbn [p_instance set_frontend].
    destruct (p_instance w); discriminate.
  - intros H. injection H as <-. split; reflexivity.
Qed.

(** Every move of the thread that comes back leads to the shape of the
    statement it arrives at. *)
Lemma startup_step_shape (m : Move) (pc pc' : Pc) (w w' : World) :
  shape pc w = true ->
  startup_step m pc w = Some (pc', w') ->
  shape pc' w' = true.
Proof.
  intros Hs H.
  destruct pc as [a|a| | | | |u|code|code|code|code|code| ].
  - (* line 71 *)
    destruct m as [|e|o];
      [|cbn [startup_step] in H; injection H as <- <-; exact Hs ..].
    destruct (pointers_null_fields w Hs) as (Hi & _).
    rewrite (step_entry_fresh a w Hi) in H. injection H as <- <-. exact Hs.
  - (* lines 77-91 *)
    destruct m as [|e|o];
      [|cbn [startup_step] in H; injection H as <- <-; exact Hs ..].
    rewrite step_setenv in H. injection H as <- <-. exact Hs.
  - (* lines 129-130 *)
    destruct m as [|e|o];
      [|cbn [startup_step] in H; injection H as <- <-; exact Hs ..].
    destruct (pointers_null_fields w Hs) as (Hi & Hd & Hf).
    rewrite (step_new_instance w Hi) in H. injection H as <- <-.
    cbn. now rewrite Hd, Hf.
  - (* lines 131-132 *)
    destruct m as [|e|o];
      [|cbn [startup_step] in H; injection H as <- <-; exact Hs ..].
    cbn [startup_step] in H. unfold bind in H. cbn [shape] in Hs.
    destruct (is_null (p_instance w)) eqn:Hi; [discriminate|].
    rewrite (construct_dispatcher_spec w Hi) in H. injection H as <- <-.
    cbn. rewrite Hi. cbn.
    destruct (is_null (p_dispatcher w)); [|discriminate]. exact Hs.
  - (* line 134 *)
    destruct m as [|e|o];
      [|cbn [startup_step] in H; injection H as <- <-; exact Hs ..].
    cbn [startup_step] in H. unfold bind in H.
    destruct (schedule ItemSetup w) as [[[] w1]|] eqn:E1; [|discriminate].
    destruct (the_instance w1) as [[i w2]|] eqn:E2; [|discriminate].
    injection H as <- <-.
    apply keeps_schedule in E1. apply keeps_the_instance in E2.
    destruct E1 as (A1 & A2 & _). destruct E2 as (B1 & B2 & _).
    cbn [shape] in *. rewrite B1, B2, A1, A2.
    destruct (is_null (p_instance w)), (is_null (p_dispatcher w)); try discriminate.
    reflexivity.
  - (* line 152 *)
    cbn [shape] in Hs. destruct (in_exec_fields w Hs) as (Hi & Hd).
    destruct m as [|e|o].
    + cbn [startup_step] in H. injection H as <- <-. exact Hs.
    + assert (Hev : forall e', (exec_event e' ;;; ret InExec) w = Some (pc', w') ->
                shape pc' w' = true).
      { intros e' He. unfold bind in He.
        destruct (exec_event e' w) as [[[] w1]|] eqn:E; [|discriminate].
        injection He as <- <-. apply keeps_exec_event in E as (A1 & A2 & _).
        cbn [shape]. now rewrite A1, A2, Hi, Hd. }
      destruct e as [fresh|ev|b]; cbn [startup_step] in H; [|now apply Hev in H ..].
      apply serve_sets in H as [(A1 & A2 & _) [->|[-> Hf]]]; cbn [shape].
      * now rewrite A1, A2, Hi, Hd.
      * unfold not_running. now rewrite A1, A2, Hi, Hd, Hf.
    + destruct o; cbn [startup_step] in H; unfold bind in H; rewrite ?jniLog_spec in H;
        injection H as <- <-; exact Hs.
  - (* line 148 *)
    destruct m as [|e|o];
      [|cbn [startup_step] in H; injection H as <- <-; exact Hs ..].
    cbn [startup_step] in H. injection H as <- <-. cbn [shape] in *.
    unfold not_running in Hs. cbn [set_uuid p_instance p_dispatcher].
    destruct (is_null (p_instance w)), (is_null (p_dispatcher w)); try discriminate.
    reflexivity.
  - (* line 52 *)
    destruct m; cbn [startup_step] in H; injection H as <- <-; exact Hs.
  - (* line 53 *)
    destruct m as [|e|o];
      [|cbn [startup_step] in H; injection H as <- <-; exact Hs ..].
    cbn [startup_step] in H. unfold bind in H.
    destruct (reset_instance w) as [[[] w1]|] eqn:E; [|discriminate].
    injection H as <- <-. apply reset_instance_post in E as [E1 E2].
    cbn [shape] in *. rewrite E1, E2.
    destruct (is_null (p_instance w)), (is_null (p_dispatcher w)); try discriminate.
    reflexivity.
  - (* line 54 *)
    destruct m as [|e|o];
      [|cbn [startup_step] in H; injection H as <- <-; exact Hs ..].
    cbn [startup_step] in H. injection H as <- <-.
    cbn [shape] in *. cbn.
    destruct (is_null (p_instance w)); [reflexivity|discriminate].
  - (* line 55 *)
    destruct m as [|e|o];
      [|cbn [startup_step] in H; injection H as <- <-; exact Hs ..].
    cbn [startup_step] in H. unfold bind in H.
    destruct (reset_frontend w) as [[[] w1]|] eqn:E; [|discriminate].
    injection H as <- <-. cbn [shape] in *.
    destruct (is_null (p_instance w)) eqn:Hi; [|discriminate].
    apply (reset_frontend_post w w1 Hi) in E as [_ ->].
    unfold pointers_null. cbn. rewrite Hi.
    destruct (is_null (p_dispatcher w)); [reflexivity|discriminate].
  - destruct m; cbn [startup_step] in H; injection H as <- <-; exact Hs.
  - destruct m; cbn [startup_step] in H; injection H as <- <-; exact Hs.
Qed.

Lemma done_step (m : Move) (pc : Pc) (w : World) :
  is_done pc = true -> startup_step m pc w = Some (pc, w).
Proof. destruct pc; try discriminate. intros _. destruct m; reflexivity. Qed.

Lemma config_ok_same_nulls (c c' : Config) :
  config_ok c -> threads c' = threads c -> same_nulls (world c) (world c') ->
  config_ok c'.
Proof.
  intros [Hths Hnull|older pc Hths Hdone Hshape] Et Ew.
  - apply ok_idle; [congruence|].
    change (shape AtNewInstance (world c') = true).
    now rewrite (shape_same_nulls _ _ _ Ew).
  - apply (ok_active _ older pc); [congruence|exact Hdone|].
    now rewrite (shape_same_nulls _ _ _ Ew).
Qed.

(** What the machine does under that discipline keeps the shape. *)
Lemma act_config_ok (a : Action) (c c' : Config) :
  config_ok c -> permitted a c = true -> act a c = Some c' -> config_ok c'.
Proof.
  intros Hok Hperm Hact. destruct a as [args|tid m|op|cid]; cbn [act] in Hact.
  - (* a new call of startup *)
    injection Hact as <-. cbn [permitted] in Hperm.
    destruct Hok as [Hths Hnull|older pc Hths Hdone Hshape].
    + apply (ok_active _ [] (AtEntry args)); cbn; [now rewrite Hths|reflexivity|exact Hnull].
    + apply (ok_active _ (older ++ [pc]) (AtEntry args)); cbn;
        [now rewrite Hths| now rewrite <- Hths |].
      rewrite Hths, forallb_app in Hperm. cbn in Hperm. rewrite andb_true_r in Hperm.
      apply andb_prop in Hperm as [_ Hpc]. destruct pc; try discriminate. exact Hshape.
  - (* a move of a thread *)
    destruct (threads c !! tid) as [pc0|] eqn:Hpc0; [|now injection Hact as <-].
    destruct (startup_step m pc0 (world c)) as [[pc' w']|] eqn:Hstep; [|discriminate].
    injection Hact as <-.
    destruct Hok as [Hths Hnull|older pc Hths Hdone Hshape].
    + rewrite Hths in Hpc0. discriminate.
    + rewrite Hths in *.
      apply lookup_app_Some in Hpc0 as [Hold|[Hge Hlast]].
      * assert (Hd : is_done pc0 = true).
        { rewrite forallb_forall in Hdone. apply Hdone.
          apply list_elem_of_In, list_elem_of_lookup. eauto. }
        rewrite (done_step m pc0 (world c) Hd) in Hstep. injection Hstep as <- <-.
        apply (ok_active _ older pc); cbn; [|exact Hdone|exact Hshape].
        apply list_insert_id. now apply lookup_app_l_Some.
      * destruct (tid - length older) as [|k] eqn:Hk; [|discriminate].
        injection Hlast as <-.
        assert (tid = length older) as -> by lia.
        apply (ok_active _ older pc'); cbn; [apply insert_last|exact Hdone|].
        exact (startup_step_shape m pc pc' (world c) w' Hshape Hstep).
  - (* a thread enters a guarded operation *)
    injection Hact as <-. apply (config_ok_same_nulls c); [exact Hok|reflexivity|reflexivity].
  - (* a thread inside a guarded operation moves *)
    destruct (callers c !! cid) as [pc0|]; [|now injection Hact as <-].
    destruct (call_step pc0 (world c)) as [[pc' w']|] eqn:Hstep; [|discriminate].
    injection Hact as <-.
    apply (config_ok_same_nulls c); [exact Hok|reflexivity|].
    exact (keeps_call_step pc0 _ _ _ Hstep).
Qed.

Lemma boot_config_ok (env0 : gmap string string) : config_ok (boot env0).
Proof. now apply ok_idle. Qed.

Lemma run_config_ok (acts : list Action) :
  forall c c', config_ok c -> one_startup_at_a_time acts c = true ->
  run acts c = Some c' -> config_ok c'.
Proof.
  induction acts as [|a acts IH]; intros c c' Hok Hdisc Hrun.
  - injection Hrun as <-. exact Hok.
  - cbn [one_startup_at_a_time] in Hdisc. apply andb_prop in Hdisc as [Hperm Hrest].
    cbn [run] in Hrun. destruct (act a c) as [c1|] eqn:Hact; [|discriminate].
    apply (IH c1 c'); [|exact Hrest|exact Hrun].
    exact (act_config_ok a c c1 Hok Hperm Hact).
Qed.


(** ** What a guarded operation has read *)







(** ** The way back from [exec] *)

Lemma reset_instance_uuid (w w' : World) :
  reset_instance w = Some (tt, w') -> p_uuid w' = p_uuid w.
Proof.
  unfold reset_instance, assign_instance, bind, get, modify.
  destruct (p_instance w) as [i|].
  - unfold destroy_instance. destruct (deleted (androidfrontend i)); [discriminate|].
    unfold modify, frontend_dangles. cbn [p_frontend set_instance].
    destruct (p_frontend w); intros H; injection H as <-; reflexivity.
  - intros H. injection H as <-. reflexivity.
Qed.

Lemma reset_frontend_uuid (w w' : World) :
  reset_frontend w = Some (tt, w') -> p_uuid w' = p_uuid w.
Proof.
  unfold reset_frontend, assign_frontend, bind, get, modify.
  destruct (p_frontend w) as [ptr|].
  - unfold delete_frontend. destruct (dangling ptr); [discriminate|].
    unfold bind, the_instance, update_instance, bind, the_instance, modify.
    cbn [p_instance set_frontend].
    destruct (p_instance w) as [i|] eqn:Hi; [|discriminate].
    destruct (deleted (androidfrontend i)); [discriminate|].
    cbn [p_instance set_frontend]. rewrite Hi.
    intros H. injection H as <-. reflexivity.
  - intros H. injection H as <-. reflexivity.
Qed.

(** No statement of [resetGlobalPointers] writes [p_uuid]. *)
Lemma reset_step_uuid (pc pc' : Pc) (w w' : World) :
  in_reset pc = true -> startup_step Stmt pc w = Some (pc', w') -> p_uuid w' = p_uuid w.
Proof.
  destruct pc; try discriminate; intros _ H; cbn [startup_step] in H; unfold bind in H.
  - unfold reset_log in H. rewrite jniLog_spec in H. injection H as _ <-. reflexivity.
  - destruct (reset_instance w) as [[[] w1]|] eqn:E; [|discriminate].
    injection H as _ <-. now apply reset_instance_uuid.
  - injection H as _ <-. reflexivity.
  - destruct (reset_frontend w) as [[[] w1]|] eqn:E; [|discriminate].
    injection H as _ <-. now apply reset_frontend_uuid.
Qed.

(** The value fixed when [exec] came back is the one returned, whatever
    the statements in between find. *)
Lemma carried_step (pc pc' : Pc) (code : Z) (w w' : World) :
  carried pc = Some code -> startup_step Stmt pc w = Some (pc', w') ->
  carried pc' = Some code.
Proof.
  destruct pc; try discriminate; intros Hc H; injection Hc as ->;
    cbn [startup_step] in H; unfold bind in H.
  - unfold reset_log in H. rewrite jniLog_spec in H. injection H as <- _. reflexivity.
  - destruct (reset_instance w) as [[[] w1]|]; [|discriminate].
    injection H as <- _. reflexivity.
  - injection H as <- _. reflexivity.
  - destruct (reset_frontend w) as [[[] w1]|]; [|discriminate].
    injection H as <- _. reflexivity.
  - injection H as <- _. reflexivity.
Qed.

Lemma unwound_step (m : Move) (w : World) : startup_step m Unwound w = Some (Unwound, w).
Proof. destruct m; reflexivity. Qed.

(** C4, amended: [resetGlobalPointers] is not atomic and not on every
    path.  With one startup at a time, in every interleaving with the
    guarded operations of other threads, the pointers are as the
    statement the thread of startup has reached says: after line 53 the
    instance is null and the dispatcher set, after line 54 both are
    null, at the return all three are null, and after an exception that
    passed both handlers the instance and the dispatcher are still set.
    No statement of the reset writes [p_uuid].  And the thread on its own,
    in a call that found no instance and no frontend: on each of the
    three ways [exec] comes back to a statement or a handler of lines
    151-163 it comes to line 55 with the instance and the dispatcher
    null and [p_uuid] as [exec] left it; when the frontend was not set,
    line 55 leaves it null and startup returns with the three pointers
    null. *)
Theorem startupFcitx_resets_pointers
    (env0 : gmap string string) (acts : list Action) (c : Config)
    (a : StartupArgs) (during : list Concurrent) (w : World) :
  (run acts (boot env0) = Some c -> one_startup_at_a_time acts (boot env0) = true ->
     forall older pc, threads c = older ++ [pc] -> shape pc (world c) = true)
  /\ (forall pc pc' w0 w',
        in_reset pc = true -> startup_step Stmt pc w0 = Some (pc', w') ->
        p_uuid w' = p_uuid w0)
  /\ (is_null (p_instance w) = true -> is_null (p_frontend w) = true ->
      forallb concurrent_fits during = true ->
      exists w1,
        exec_phase during (ready_world a w) = Some (tt, w1)
        /\ (forall o code, return_code o = Some code ->
              exists w3,
                startup_steps [Leave o; Stmt; Stmt; Stmt] InExec w1
                = Some (AtResetFrontend code, w3)
                /\ is_null (p_instance w3) = true
                /\ is_null (p_dispatcher w3) = true
                /\ p_uuid w3 = p_uuid w1
                /\ (is_null (p_frontend w1) = true ->
                      exists w',
                        startup_step Stmt (AtResetFrontend code) w3 = Some (Done code, w')
                        /\ startupFcitx a during o w = Some (code, w')
                        /\ pointers_null w' = true
                        /\ p_uuid w' = p_uuid w1))
        /\ startup_steps [Leave OtherException; Stmt; Stmt; Stmt; Stmt] InExec w1
           = Some (Unwound, w1)
        /\ is_null (p_instance w1) = false
        /\ is_null (p_dispatcher w1) = false).
Proof.
  split; [|split].
  - intros Hrun Hdisc older pc Hths.
    destruct (run_config_ok acts (boot env0) c (boot_config_ok env0) Hdisc Hrun)
      as [Hnil _|older' pc' Hths' _ Hshape].
    + rewrite Hnil in Hths. now destruct older.
    + rewrite Hths' in Hths. apply app_inj_tail in Hths as [_ <-]. exact Hshape.
  - intros pc pc' w0 w'. apply reset_step_uuid.
  - intros Hi Hf Hfit.
    destruct (exec_defined a during (Returned 0) w Hf Hfit) as (w1 & Hphase & _ & Hok).
    destruct (exec_ok_instance w1 Hok) as (i & d & Hi1 & Hd1 & Hdel & _).
    exists w1. split; [exact Hphase|]. split; [|split; [reflexivity|split]].
    + intros o code Hc.
      destruct (handled_world_fields o w1) as (Ei & Ed & Ef & Eu).
      destruct (at_line_55_fields (handled_world o w1)) as (Ni & Nd & Nf & Nu & _).
      exists (at_line_55 (handled_world o w1)).
      split.
      { rewrite (steps_cons _ _ _ _ _ _ (leave_step o code w1 Hc)).
        apply (steps_to_line_55 code _ i); [now rewrite Ei | exact Hdel]. }
      split; [exact Ni|]. split; [exact Nd|]. split; [now rewrite Nu|].
      intros Hnull. exists (reset_world (handled_world o w1)).
      split.
      { cbn [startup_step]. unfold bind.
        rewrite line_55_clean by (now rewrite Ef). reflexivity. }
      split.
      { destruct (exec_defined a during o w Hf Hfit) as (w1' & Hphase' & Hexec & _).
        rewrite Hphase in Hphase'. injection Hphase' as <-.
        rewrite (startupFcitx_fresh a during o w Hi). unfold bind. rewrite Hexec.
        now rewrite (after_exec_spec o code w1 i Hc Hi1 Hdel), Hnull. }
      split; [reflexivity|exact Eu].
    + now rewrite Hi1.
    + now rewrite Hd1.
Qed.

Lemma startupFcitx_resets_pointers_witness :
  (run startup_through_line_53 (boot ∅) = Some after_line_53
   /\ threads after_line_53 = [AtResetDispatcher 0]
   /\ shape (AtResetDispatcher 0) (world after_line_53) = true)
  /\ p_uuid (set_dispatcher None (world after_line_53)) = p_uuid (world after_line_53)
  /\ exists w',
       startupFcitx sample_args [Host OpExit] (StdException "boom") (process_start ∅)
       = Some (1%Z, w')
       /\ pointers_null w' = true.
Proof.
  assert (E : run startup_through_line_53 (boot ∅) = Some after_line_53)
    by (vm_compute; reflexivity).
  destruct (startupFcitx_resets_pointers ∅ startup_through_line_53 after_line_53
              sample_args [Host OpExit] (process_start ∅)) as (Hmachine & Huuid & Hcall).
  split; [|split].
  - split; [exact E|]. split; [vm_compute; reflexivity|].
    apply (Hmachine E) with (older := []); vm_compute; reflexivity.
  - apply (Huuid (AtResetDispatcher 0) (AtResetFrontend 0)); reflexivity.
  - destruct (Hcall eq_refl eq_refl eq_refl) as (w1 & Hphase & Hret & _).
    destruct (Hret (StdException "boom") 1%Z eq_refl) as (w3 & _ & _ & _ & _ & Hclean).
    destruct Hclean as (w' & _ & Hcalled & Hnull & _).
    + vm_compute in Hphase. injection Hphase as <-. reflexivity.
    + exists w'. split; assumption.
Defined.

(** C4 as stated fails.  The reset is not atomic: after line 53 of a run
    whose setup item was served, a query from another thread finds the
    instance null with the dispatcher and the frontend set, and after
    line 54 only the frontend, [p_uuid] holding the id of the input
    context all along.  And it is not on every path: an exception that
    passes both handlers leaves startup with the whole handle set. *)
Lemma reset_is_partial_and_can_be_skipped :
  match run startup_through_line_53 (boot ∅) with
  | Some c =>
      threads c = [AtResetDispatcher 0]
      /\ is_null (p_instance (world c)) = true
      /\ is_null (p_dispatcher (world c)) = false
      /\ is_null (p_frontend (world c)) = false
      /\ p_uuid (world c) = sample_uuid
      /\ handle_consistent (world c) = false
      /\ isInputPanelEmpty (world c)
         = Some (true, logged "fcitx is not running!" (world c))
  | None => False
  end
  /\ match run startup_through_line_54 (boot ∅) with
     | Some c =>
         threads c = [AtResetFrontend 0]
         /\ is_null (p_instance (world c)) = true
         /\ is_null (p_dispatcher (world c)) = true
         /\ is_null (p_frontend (world c)) = false
         /\ p_uuid (world c) = sample_uuid
         /\ handle_consistent (world c) = false
     | None => False
     end
  /\ match run startup_other_exception (boot ∅) with
     | Some c =>
         threads c = [Unwound]
         /\ not_running (world c) = false
         /\ fully_set (world c) = true
     | None => False
     end.
Proof. vm_compute. repeat split. Qed.

(** C5, amended: startup returns 2 when an instance is already there.
    Otherwise the value is fixed where [exec] comes back: its own code
    when it returns, 0 when the engine quit quietly, 1 when it threw a
    [std::exception], whose message the handler writes to the log; every
    statement of [resetGlobalPointers] that comes back carries that value
    on to the return, whatever it finds.  For an exception that passes
    both handlers there is no value and no return.  And the thread on its
    own, in a call that found no instance and no frontend: it comes to
    line 55 with that value, and returns it when the frontend was not
    set. *)
Theorem startupFcitx_return_value
    (a : StartupArgs) (during : list Concurrent) (w : World) :
  (is_null (p_instance w) = false ->
     forall o, exists w', startupFcitx a during o w = Some (2%Z, w'))
  /\ (forall o code w0, return_code o = Some code ->
        startup_step (Leave o) InExec w0 = Some (AtResetLog code, handled_world o w0))
  /\ (forall pc pc' code w0 w',
        carried pc = Some code -> startup_step Stmt pc w0 = Some (pc', w') ->
        carried pc' = Some code)
  /\ (forall w0,
        startup_step (Leave OtherException) InExec w0 = Some (Unwound, w0)
        /\ forall m, startup_step m Unwound w0 = Some (Unwound, w0))
  /\ (is_null (p_instance w) = true -> is_null (p_frontend w) = true ->
      forallb concurrent_fits during = true ->
      exists w1,
        exec_phase during (ready_world a w) = Some (tt, w1)
        /\ (forall code, exists w3,
              startup_steps [Leave (Returned code); Stmt; Stmt; Stmt] InExec w1
              = Some (AtResetFrontend code, w3))
        /\ (exists w3,
              startup_steps [Leave InstanceQuietQuit; Stmt; Stmt; Stmt] InExec w1
              = Some (AtResetFrontend 0, w3))
        /\ (forall what, exists w3,
              startup_steps [Leave (StdException what); Stmt; Stmt; Stmt] InExec w1
              = Some (AtResetFrontend 1, w3)
              /\ In (jni_line "fcitx exited with exception:") (logcat w3)
              /\ In (jni_line what) (logcat w3))
        /\ (is_null (p_frontend w1) = true ->
              (forall code, exists w',
                 startupFcitx a during (Returned code) w = Some (code, w'))
              /\ (exists w', startupFcitx a during InstanceQuietQuit w = Some (0%Z, w'))
              /\ (forall what, exists w',
                    startupFcitx a during (StdException what) w = Some (1%Z, w')
                    /\ In (jni_line "fcitx exited with exception:") (logcat w')
                    /\ In (jni_line what) (logcat w')))
        /\ startupFcitx a during OtherException w = None).
Proof.
  split; [|split; [|split; [|split]]].
  - intros H o. eexists. apply (startupFcitx_running a during o w H).
  - intros o code w0. apply leave_step.
  - intros pc pc' code w0 w'. apply carried_step.
  - intros w0. split; [reflexivity|]. intros m. apply unwound_step.
  - intros Hi Hf Hfit.
    destruct (exec_defined a during (Returned 0) w Hf Hfit) as (w1 & Hphase & _ & Hok).
    destruct (exec_ok_instance w1 Hok) as (i & d & Hi1 & Hd1 & Hdel & _).
    assert (Hsteps : forall o code, return_code o = Some code ->
              startup_steps [Leave o; Stmt; Stmt; Stmt] InExec w1
              = Some (AtResetFrontend code, at_line_55 (handled_world o w1))).
    { intros o code Hc.
      rewrite (steps_cons _ _ _ _ _ _ (leave_step o code w1 Hc)).
      apply (steps_to_line_55 code _ i); [|exact Hdel].
      now rewrite (proj1 (handled_world_fields o w1)). }
    assert (Hcall : forall o code, return_code o = Some code ->
              is_null (p_frontend w1) = true ->
              startupFcitx a during o w = Some (code, reset_world (handled_world o w1))).
    { intros o code Hc Hnull.
      destruct (exec_defined a during o w Hf Hfit) as (w1' & Hphase' & Hexec & _).
      rewrite Hphase in Hphase'. injection Hphase' as <-.
      rewrite (startupFcitx_fresh a during o w Hi). unfold bind. rewrite Hexec.
      now rewrite (after_exec_spec o code w1 i Hc Hi1 Hdel), Hnull. }
    exists w1. split; [exact Hphase|].
    split; [intros code; eexists; now apply Hsteps|].
    split; [eexists; now apply Hsteps|].
    split.
    { intros what. eexists. split; [now apply Hsteps|].
      rewrite (proj2 (proj2 (proj2 (proj2 (at_line_55_fields _))))).
      cbn [handled_world logged set_logcat logcat].
      rewrite !in_app_iff. cbn [In]. tauto. }
    split.
    { intros Hnull. split; [|split].
      - intros code. eexists. now apply Hcall.
      - eexists. now apply Hcall.
      - intros what. eexists. split; [now apply Hcall|].
        cbn [reset_world handled_world logged set_logcat set_instance set_dispatcher
               set_frontend logcat].
        rewrite !in_app_iff. cbn [In]. tauto. }
    destruct (exec_defined a during OtherException w Hf Hfit) as (w1' & _ & Hexec & _).
    rewrite (startupFcitx_fresh a during OtherException w Hi). unfold bind.
    now rewrite Hexec.
Qed.

Lemma startupFcitx_return_value_witness :
  (exists w', startupFcitx sample_args [] (Returned 0) live_world = Some (2%Z, w'))
  /\ startup_step (Leave (StdException "boom")) InExec live_world
     = Some (AtResetLog 1, handled_world (StdException "boom") live_world)
  /\ carried (AtResetInstance 3) = Some 3%Z
  /\ (exists w1 w3,
        exec_phase [Engine (Dispatch sample_uuid); Host OpExit]
          (ready_world sample_args (process_start ∅)) = Some (tt, w1)
        /\ startup_steps [Leave (Returned 3); Stmt; Stmt; Stmt] InExec w1
           = Some (AtResetFrontend 3, w3))
  /\ (exists w', startupFcitx sample_args [Host OpExit] (Returned 3) (process_start ∅)
                 = Some (3%Z, w'))
  /\ (exists w', startupFcitx sample_args [Host OpExit] InstanceQuietQuit (process_start ∅)
                 = Some (0%Z, w'))
  /\ (exists w', startupFcitx sample_args [Host OpExit] (StdException "boom")
                   (process_start ∅) = Some (1%Z, w')
                 /\ In (jni_line "fcitx exited with exception:") (logcat w')
                 /\ In (jni_line "boom") (logcat w')).
Proof.
  destruct (startupFcitx_return_value sample_args [] live_world)
    as (Hrunning & Hleave & Hcarry & _).
  destruct (startupFcitx_return_value sample_args
              [Engine (Dispatch sample_uuid); Host OpExit] (process_start ∅))
    as (_ & _ & _ & _ & Hserved).
  destruct (Hserved eq_refl eq_refl eq_refl) as (v1 & Hv1 & Hv3 & _).
  destruct (startupFcitx_return_value sample_args [Host OpExit] (process_start ∅))
    as (_ & _ & _ & _ & Hfresh).
  destruct (Hfresh eq_refl eq_refl eq_refl) as (w1 & Hphase & _ & _ & _ & Hclean & _).
  assert (Hnull : is_null (p_frontend w1) = true).
  { vm_compute in Hphase. injection Hphase as <-. reflexivity. }
  destruct (Hclean Hnull) as (Hcode & Hquiet & Hthrown).
  split; [|split; [|split; [|split; [|split; [|split]]]]].
  - apply Hrunning. vm_compute. reflexivity.
  - apply Hleave. reflexivity.
  - apply (Hcarry (AtResetLog 3) (AtResetInstance 3) 3%Z live_world
             (logged "resetGlobalPointers" live_world)); reflexivity.
  - destruct (Hv3 3%Z) as (w3 & Hw3). exists v1, w3. split; [exact Hv1 | exact Hw3].
  - exact (Hcode 3%Z).
  - exact Hquiet.
  - exact (Hthrown "boom").
Defined.

(** C5 as stated fails: with an exception that passes both handlers
    startup returns nothing, not 1.  The thread leaves the function with
    the instance and the dispatcher set and the log holding neither the
    line of the handler nor that of the reset. *)
Lemma no_return_value_for_other_exception :
  startupFcitx sample_args [] OtherException (process_start ∅) = None
  /\ match startup_steps (whole_call [] OtherException) (AtEntry sample_args)
             (process_start ∅) with
     | Some (pc, w) =>
         pc = Unwound
         /\ is_null (p_instance w) = false
         /\ is_null (p_dispatcher w) = false
         /\ logcat w = [jni_line "startupFcitx"]
     | None => False
     end.
Proof. vm_compute. repeat split. Qed.

(** ** What a guarded operation finds *)

(** Nothing holds the pointers between the guard and the body: a thread
    that read the three pointers set while [exec] ran and comes to its
    body when startup has executed line 54 dereferences a null
    dispatcher. *)
Lemma body_after_reset_undefined :
  match run exit_across_reset (boot ∅) with
  | Some c =>
      threads c = [AtResetFrontend 0]
      /\ callers c = [AtBody OpExit]
      /\ is_null (p_dispatcher (world c)) = true
      /\ run [Proceed 0] c = None
  | None => False
  end.
Proof. vm_compute. repeat split. Qed.



